(** * stan_colab_utils: extension-driven persistence and the cached model builder

    A shallow embedding of [src/stan_colab_utils.py]: the functions
    [install], [_read], [read], [_save], [save] and [StanModel], written as
    programs of a small monad that threads the interpreter's environment
    (the file store and the importable modules), raises Python exceptions
    and records the calls made to the outside world. *)

From Stdlib Require Import ZArith String Ascii List Bool Lia.
From Stdlib Require Import Init.Byte.
From stdpp Require Import base gmap strings list.
Import ListNotations.

Local Open Scope string_scope.
Local Open Scope Z_scope.
Local Open Scope list_scope.

(** ** Python exceptions *)

(** The exception classes that the program and its libraries raise.
    [Error name] stands for any class outside the families named here
    (a build failure of the model compiler, [zlib.error], ...). *)
Inductive exn : Type :=
  | OSError
  | FileNotFoundError
  | PermissionError
  | IsADirectoryError
  | BadGzipFile
  | TypeError
  | ValueError
  | EOFError
  | LZMAError
  | UnpicklingError
  | PicklingError
  | ImportError
  | ModuleNotFoundError
  | UnboundLocalError
  | Error (name : string).

#[global] Instance exn_eq_dec : EqDecision exn.
Proof. solve_decision. Defined.

(** Direct base class, for the classes with a base among the ones above. *)
Definition base (e : exn) : option exn :=
  match e with
  | FileNotFoundError | PermissionError | IsADirectoryError | BadGzipFile =>
      Some OSError
  | ModuleNotFoundError => Some ImportError
  | _ => None
  end.

(** [isinstance e cls]: [e] is of class [cls] or of a subclass of it. *)
Definition isinstance (e cls : exn) : bool :=
  bool_decide (e = cls) || bool_decide (base e = Some cls).

(** [except (c1, c2, ...)]: does the clause catch [e]? *)
Definition except_matches (classes : list exn) (e : exn) : bool :=
  existsb (isinstance e) classes.

(** ** Paths: [os.path.splitext] *)

(** [str.rfind] for a one-character needle: the highest index of [c] in [s],
    or [-1]. [i] is the index of the first character of [s]. *)
Fixpoint rfind_from (c : ascii) (s : string) (i : Z) : Z :=
  match s with
  | EmptyString => -1
  | String a s' =>
      let r := rfind_from c s' (i + 1) in
      if 0 <=? r then r else if Ascii.eqb a c then i else -1
  end.

Definition rfind (c : ascii) (s : string) : Z := rfind_from c s 0.

(** The loop of [genericpath._splitext] that skips the leading dots of the
    file name: [n] iterations remain, for [filenameIndex] up to [dotIndex]. *)
Fixpoint splitext_scan (p : string) (dotIndex filenameIndex n : nat)
  : string * string :=
  match n with
  | O => (p, "")
  | S n' =>
      if negb (String.eqb (substring filenameIndex 1 p) ".")
      then (substring 0 dotIndex p,
            substring dotIndex (String.length p - dotIndex) p)
      else splitext_scan p dotIndex (S filenameIndex) n'
  end.

(** [os.path.splitext] on a POSIX system (separator [/], no alternative
    separator, extension separator [.]). *)
Definition splitext (p : string) : string * string :=
  let sepIndex := rfind "/" p in
  let dotIndex := rfind "." p in
  if sepIndex <? dotIndex
  then splitext_scan p (Z.to_nat dotIndex) (Z.to_nat (sepIndex + 1))
         (Z.to_nat (dotIndex - (sepIndex + 1)))
  else (p, "").

(** ** Codecs and the extension table *)

(** The four modules whose [open] the dispatcher may call. *)
Inductive compression : Type := gzip | lzma | bz2 | io.

#[global] Instance compression_eq_dec : EqDecision compression.
Proof. solve_decision. Defined.

(** The dict literal [ext_dict] of [read] and of [save] (the same in both). *)
Definition ext_dict : gmap string compression :=
  <[".gz" := gzip]> (<[".gzip" := gzip]> (<[".zip" := gzip]>
  (<[".xz" := lzma]> (<[".lzma" := lzma]>
  (<[".bz2" := bz2]>
  (<[".pkl" := io]> (<[".pickle" := io]> ∅))))))).

(** [ext_dict.get(extension, io)] *)
Definition ext_dict_get (extension : string) : compression :=
  default io (ext_dict !! extension).

(** [extension in ('.pkl', '.pickle')] *)
Definition is_pickle_extension (extension : string) : bool :=
  bool_decide (extension ∈ [".pkl"; ".pickle"]).

(** ** Values, the environment and the calls to the outside world *)

Definition bytes : Type := list byte.

#[global] Instance byte_eq_decision : EqDecision byte := Byte.byte_eq_dec.

(** The Python values that flow through the program: [obj] is the type of
    the opaque objects (a compiled model, or whatever a cache file holds). *)
Inductive value (obj : Type) : Type :=
  | VNone
  | VBool (b : bool)
  | VStr (s : string)
  | VBytes (b : bytes)
  | VObj (o : obj).

Arguments VNone {obj}.
Arguments VBool {obj} b.
Arguments VStr {obj} s.
Arguments VBytes {obj} b.
Arguments VObj {obj} o.

(** The state of the interpreter's surroundings: the regular files by path,
    the error (if any) with which the operating system refuses to open a
    path for reading or for writing (permissions, a directory, ...), the
    importable modules, and whether [pip] has the attribute [main]. *)
Record env : Type := MkEnv {
  files : gmap string bytes;
  read_error : string -> option exn;
  write_error : string -> option exn;
  modules : gset string;
  pip_has_main : bool
}.

Definition set_files (f : gmap string bytes) (s : env) : env :=
  {| files := f;
     read_error := read_error s;
     write_error := write_error s;
     modules := modules s;
     pip_has_main := pip_has_main s |}.

(** What a call raised or returned. *)
Inductive outcome (A : Type) : Type :=
  | Ok (a : A)
  | Raise (e : exn).

Arguments Ok {A} a.
Arguments Raise {A} e.

Section Program.

Context {obj : Type}.

(** Keyword arguments ([**kwargs], a [dict(...)]), in order. *)
Definition keywords : Type := list (string * value obj).

(** The calls that leave the program, in the order they are made. *)
Inductive event : Type :=
  | EvPip (entry : string) (args : list string)
  | EvExists (path : string)
  | EvOpen (c : compression) (path mode : string)
  | EvBuild (kw : keywords).

(** A computation: from an environment, an outcome, the environment it
    leaves and the calls it made. An exception keeps the effects that
    happened before it. *)
Definition M (A : Type) : Type := env -> outcome A * env * list event.

Definition ret {A : Type} (a : A) : M A := fun s => (Ok a, s, []).

Definition raise {A : Type} (e : exn) : M A := fun s => (Raise e, s, []).

Definition bind {A B : Type} (m : M A) (k : A -> M B) : M B :=
  fun s =>
    match m s with
    | (Ok a, s1, t1) => let '(r, s2, t2) := k a s1 in (r, s2, t1 ++ t2)
    | (Raise e, s1, t1) => (Raise e, s1, t1)
    end.

(** [try: body / except classes: handler] *)
Definition try_except {A : Type} (body : M A) (classes : list exn)
    (handler : M A) : M A :=
  fun s =>
    match body s with
    | (Ok a, s1, t1) => (Ok a, s1, t1)
    | (Raise e, s1, t1) =>
        if except_matches classes e
        then let '(r, s2, t2) := handler s1 in (r, s2, t1 ++ t2)
        else (Raise e, s1, t1)
    end.

(** [try: body / except: handler] (a bare [except] catches everything) *)
Definition try_except_all {A : Type} (body handler : M A) : M A :=
  fun s =>
    match body s with
    | (Ok a, s1, t1) => (Ok a, s1, t1)
    | (Raise _, s1, t1) => let '(r, s2, t2) := handler s1 in (r, s2, t1 ++ t2)
    end.

Declare Scope py_scope.
Delimit Scope py_scope with py.
Notation "x <- m ;; k" := (bind m (fun x => k))
  (at level 100, m at next level, right associativity) : py_scope.
Notation "m ;;; k" := (bind m (fun _ => k))
  (at level 100, right associativity) : py_scope.
Local Open Scope py_scope.

(** The libraries and collaborators the program calls but does not define. *)
Record externals : Type := MkExternals {
  (** what [gzip], [lzma] and [bz2] store for a byte string *)
  compress : compression -> keywords -> bytes -> bytes;
  (** and what they read back, or the error of a stream they reject *)
  decompress : compression -> bytes -> outcome bytes;
  (** the error of [compression.open] on keyword options it does not take *)
  open_kwargs_error : compression -> keywords -> option exn;
  (** the error with which the codec rejects the value of an option once
      the file has been opened (the compression level of [gzip]) *)
  stream_kwargs_error : compression -> keywords -> option exn;
  (** [with compression.open(path, mode) as f: f.read()], mode not ["rb"] *)
  foreign_read :
    compression -> string -> string -> env -> outcome (value obj) * env;
  (** [with compression.open(path, mode, **kw) as f: f.write(obj)], mode not
      ["wb"] *)
  foreign_write :
    compression -> string -> string -> keywords -> value obj -> env ->
    outcome unit * env;
  pickle_dumps : value obj -> outcome bytes;
  pickle_loads_bytes : bytes -> outcome (value obj);
  (** [pip.main] and [pip._internal.main] *)
  pip_main : list string -> env -> outcome unit * env;
  pip_internal_main : list string -> env -> outcome unit * env;
  (** [pystan.StanModel] on the keywords [kw]: the compiled model, or the
      build error *)
  pystan_StanModel : keywords -> env -> outcome (value obj)
}.

Variable X : externals.

(** [import name] *)
Definition import_module (name : string) : M unit :=
  fun s =>
    if bool_decide (name ∈ modules s) then (Ok tt, s, [])
    else (Raise ModuleNotFoundError, s, []).

(** [os.path.exists(path)]: no file is found at the empty path. *)
Definition os_path_exists (path : string) : M bool :=
  fun s =>
    (Ok (bool_decide (path ≠ "") && bool_decide (is_Some (files s !! path))),
     s, [EvExists path]).

(** The bytes the operating system hands out for [path]. *)
Definition stored_bytes (path : string) (s : env) : outcome bytes :=
  if bool_decide (path = "") then Raise FileNotFoundError
  else match read_error s path with
       | Some e => Raise e
       | None =>
           match files s !! path with
           | Some b => Ok b
           | None => Raise FileNotFoundError
           end
       end.

(** [io] stores the bytes as they are. *)
Definition encode (c : compression) (kw : keywords) (b : bytes) : bytes :=
  match c with
  | io => b
  | _ => compress X c kw b
  end.

Definition decode (c : compression) (b : bytes) : outcome bytes :=
  match c with
  | io => Ok b
  | _ => decompress X c b
  end.

(** [with compression.open(path, mode=mode) as f: obj = f.read()] *)
Definition open_read (c : compression) (path mode : string)
  : M (value obj) :=
  fun s =>
    if String.eqb mode "rb"
    then match stored_bytes path s with
         | Ok b =>
             match decode c b with
             | Ok b' => (Ok (VBytes b'), s, [EvOpen c path mode])
             | Raise e => (Raise e, s, [EvOpen c path mode])
             end
         | Raise e => (Raise e, s, [EvOpen c path mode])
         end
    else let '(r, s') := foreign_read X c path mode s in
         (r, s', [EvOpen c path mode]).

(** Keyword options are checked by [open] before the file is touched. *)
Definition kwargs_error (c : compression) (kw : keywords) : option exn :=
  match kw with
  | [] => None
  | _ => open_kwargs_error X c kw
  end.

(** Some option values are rejected only when the stream is set up, after
    the file has been opened. *)
Definition late_kwargs_error (c : compression) (kw : keywords) : option exn :=
  match kw with
  | [] => None
  | _ => stream_kwargs_error X c kw
  end.

(** [with compression.open(path, mode=mode, **kwargs) as f: f.write(obj)].
    Opening truncates the file: an option value rejected after that leaves
    the file empty, and writing anything but bytes to a binary stream is a
    [TypeError], which leaves the truncated (empty) stream. *)
Definition open_write (c : compression) (path mode : string) (kw : keywords)
    (o : value obj) : M unit :=
  fun s =>
    if String.eqb mode "wb"
    then match kwargs_error c kw with
         | Some e => (Raise e, s, [EvOpen c path mode])
         | None =>
             if bool_decide (path = "")
             then (Raise FileNotFoundError, s, [EvOpen c path mode])
             else match write_error s path with
                  | Some e => (Raise e, s, [EvOpen c path mode])
                  | None =>
                      match late_kwargs_error c kw with
                      | Some e =>
                          (Raise e, set_files (<[path := []]> (files s)) s,
                           [EvOpen c path mode])
                      | None =>
                          match o with
                          | VBytes b =>
                              (Ok tt,
                               set_files (<[path := encode c kw b]> (files s))
                                 s,
                               [EvOpen c path mode])
                          | _ =>
                              (Raise TypeError,
                               set_files (<[path := encode c kw []]> (files s))
                                 s,
                               [EvOpen c path mode])
                          end
                      end
                  end
         end
    else let '(r, s') := foreign_write X c path mode kw o s in
         (r, s', [EvOpen c path mode]).

(** [pickle.loads(obj)]: anything but bytes is a [TypeError]. *)
Definition pickle_loads (o : value obj) : M (value obj) :=
  fun s =>
    match o with
    | VBytes b => (pickle_loads_bytes X b, s, [])
    | _ => (Raise TypeError, s, [])
    end.

(** [pickle.dumps(obj)] *)
Definition pickle_dumps_value (o : value obj) : M (value obj) :=
  fun s =>
    match pickle_dumps X o with
    | Ok b => (Ok (VBytes b), s, [])
    | Raise e => (Raise e, s, [])
    end.

(** ** The program *)

(** [install(package)], lines 9-15. *)
Definition install (package : string) : M unit :=
  import_module "pip" ;;;
  fun s =>
    if pip_has_main s
    then let '(r, s') := pip_main X ["install"; package] s in
         (r, s', [EvPip "pip.main" ["install"; package]])
    else (import_module "pip._internal" ;;;
          fun s1 =>
            let '(r, s') := pip_internal_main X ["install"; package] s1 in
            (r, s', [EvPip "pip._internal.main" ["install"; package]])) s.

(** [_read(path, compression, mode, pickling)], lines 17-22. *)
Definition _read (path : string) (c : compression) (mode : string)
    (pickling : bool) : M (value obj) :=
  o <- open_read c path mode ;;
  if pickling then pickle_loads o else ret o.

(** [read(path, mode, pickling)], lines 24-40. *)
Definition read (path mode : string) (pickling : bool) : M (value obj) :=
  let extension := snd (splitext path) in
  let '(mode, pickling) :=
    if is_pickle_extension extension then ("rb", true) else (mode, pickling) in
  let c := ext_dict_get extension in
  _read path c mode pickling.

(** [_save(path, obj, compression, mode, pickling, **kwargs)], lines 42-46. *)
Definition _save (path : string) (o : value obj) (c : compression)
    (mode : string) (pickling : bool) (kw : keywords) : M unit :=
  o <- (if pickling then pickle_dumps_value o else ret o) ;;
  open_write c path mode kw o.

(** [save(path, obj, mode, pickling, **kwargs)], lines 48-64. *)
Definition save (path : string) (o : value obj) (mode : string)
    (pickling : bool) (kw : keywords) : M unit :=
  let extension := snd (splitext path) in
  let '(mode, pickling) :=
    if is_pickle_extension extension then ("wb", true) else (mode, pickling) in
  let c := ext_dict_get extension in
  _save path o c mode pickling kw.

(** [pystan.StanModel] called on the keywords [kw]. *)
Definition call_builder (kw : keywords) : M (value obj) :=
  fun s => (pystan_StanModel X kw s, s, [EvBuild kw]).

(** Truth value of a string: the empty string is false. *)
Definition truthy (p : string) : bool := negb (String.eqb p "").

(** The [dict(...)] of lines 202-215: the eleven named parameters under
    their own names, then the extra keywords. *)
Definition stan_model_kwargs
    (file charset model_name model_code stanc_ret include_paths boost_lib
     eigen_lib verbose obfuscate_model_name extra_compile_args : value obj)
    (kwargs : keywords) : keywords :=
  [("file", file); ("charset", charset); ("model_name", model_name);
   ("model_code", model_code); ("stanc_ret", stanc_ret);
   ("include_paths", include_paths); ("boost_lib", boost_lib);
   ("eigen_lib", eigen_lib); ("verbose", verbose);
   ("obfuscate_model_name", obfuscate_model_name);
   ("extra_compile_args", extra_compile_args)] ++ kwargs.

(** Lines 187-190: [try: import pystan / except: install("pystan")].
    The result tells whether the local name [pystan] is bound afterwards:
    the handler installs the package but binds nothing. *)
Definition import_or_install : M bool :=
  try_except_all (import_module "pystan" ;;; ret true)
                 (install "pystan" ;;; ret false).

(** Lines 192-199: the cache probe. The result is the pair of the locals
    [stan_model] (bound or not) and [compile_model]. *)
Definition probe (cache_path : option string)
  : M (option (value obj) * bool) :=
  match cache_path with
  | Some p =>
      found <- os_path_exists p ;;
      if found
      then try_except
             (stan_model <- read p "rb" true ;; ret (Some stan_model, false))
             [OSError; TypeError]
             (ret (None, true))
      else ret (None, true)
  | None => ret (None, true)
  end.

(** Lines 217-218: [if cache_path: save(cache_path, stan_model)]. *)
Definition persist (cache_path : option string) (stan_model : value obj)
  : M unit :=
  match cache_path with
  | Some p => if truthy p then save p stan_model "wb" true [] else ret tt
  | None => ret tt
  end.

(** [StanModel(file, ..., extra_compile_args, cache_path, **kwargs)],
    lines 67-220. *)
Definition StanModel
    (file charset model_name model_code stanc_ret include_paths boost_lib
     eigen_lib verbose obfuscate_model_name extra_compile_args : value obj)
    (cache_path : option string) (kwargs : keywords) : M (value obj) :=
  pystan <- import_or_install ;;
  locals <- probe cache_path ;;
  let '(stan_model, compile_model) := locals in
  stan_model <-
    (if compile_model : bool
     then
       let kw :=
         stan_model_kwargs file charset model_name model_code stanc_ret
           include_paths boost_lib eigen_lib verbose obfuscate_model_name
           extra_compile_args kwargs in
       built <- (if pystan : bool then call_builder kw
                 else raise UnboundLocalError) ;;
       persist cache_path built ;;;
       ret (Some built)
     else ret stan_model) ;;
  match stan_model with
  | Some m => ret m
  | None => raise UnboundLocalError
  end.

End Program.

Arguments externals obj : clear implicits.
Arguments event obj : clear implicits.
Arguments keywords obj : clear implicits.

(** ** Reading a run *)

Section Runs.

Context {obj : Type}.

Definition outcome_of {A : Type} (run : outcome A * env * list (event obj))
  : outcome A := fst (fst run).

Definition env_of {A : Type} (run : outcome A * env * list (event obj))
  : env := snd (fst run).

Definition trace_of {A : Type} (run : outcome A * env * list (event obj))
  : list (event obj) := snd run.

Definition is_build (ev : event obj) : bool :=
  match ev with
  | EvBuild _ => true
  | _ => false
  end.

(** How many times the external builder was invoked. *)
Definition builder_calls (t : list (event obj)) : nat :=
  length (List.filter is_build t).

Definition is_file_access (ev : event obj) : bool :=
  match ev with
  | EvExists _ | EvOpen _ _ _ => true
  | _ => false
  end.

(** The accesses to the file system: existence tests and opens. *)
Definition file_accesses (t : list (event obj)) : list (event obj) :=
  List.filter is_file_access t.

Definition is_write (ev : event obj) : bool :=
  match ev with
  | EvOpen _ _ mode => String.eqb mode "wb"
  | _ => false
  end.

(** The opens for writing. *)
Definition writes (t : list (event obj)) : list (event obj) :=
  List.filter is_write t.

(** The assumptions on the libraries under which what was saved can be
    read back: decompressing undoes compressing, unpickling undoes
    pickling. *)
Definition codec_roundtrip (X : externals obj) : Prop :=
  forall c kw b, c <> io -> decompress X c (compress X c kw b) = Ok b.

Definition pickle_roundtrip (X : externals obj) : Prop :=
  forall v b, pickle_dumps X v = Ok b -> pickle_loads_bytes X b = Ok v.

(** What opening [path] through [c] in mode ["rb"], reading it all and
    unpickling yields. *)
Definition unpickled (X : externals obj) (c : compression) (path : string)
    (s : env) : outcome (value obj) :=
  match stored_bytes path s with
  | Ok b =>
      match decode X c b with
      | Ok b' => pickle_loads_bytes X b'
      | Raise e => Raise e
      end
  | Raise e => Raise e
  end.

(** The codec that [read] and [save] pick for [path]. *)
Definition codec_of (path : string) : compression :=
  ext_dict_get (snd (splitext path)).

(** A cache miss as the specification describes it, for a cached builder
    [call] whose builder receives the keywords [kw]: from [s], the call on
    [p] invokes the builder exactly once, on [kw]; the one write it makes is
    the save of the pickled artifact at [p] under the codec of [p]; it
    returns the artifact; and the next call on [p] returns the same artifact
    without invoking the builder. *)
Definition miss_then_hit (X : externals obj)
    (call : option string -> env -> outcome (value obj) * env * list (event obj))
    (kw : keywords obj) (p : string) (s : env) : Prop :=
  exists m b s1 t1,
    call (Some p) s = (Ok m, s1, t1) /\
    builder_calls t1 = 1%nat /\ In (EvBuild kw) t1 /\
    writes t1 = [EvOpen (codec_of p) p "wb"] /\
    pickle_dumps X m = Ok b /\
    files s1 !! p = Some (encode X (codec_of p) [] b) /\
    exists s2 t2,
      call (Some p) s1 = (Ok m, s2, t2) /\ builder_calls t2 = 0%nat.

End Runs.

(** The extension table in the words of the specification: the codec, and
    whether serialization is forced. *)
Definition spec_table (extension : string) : compression * bool :=
  if bool_decide (extension ∈ [".gz"; ".gzip"; ".zip"]) then (gzip, false)
  else if bool_decide (extension ∈ [".xz"; ".lzma"]) then (lzma, false)
  else if bool_decide (extension = ".bz2") then (bz2, false)
  else if bool_decide (extension ∈ [".pkl"; ".pickle"]) then (io, true)
  else (io, false).

(** ** A concrete set of libraries, to run the program on *)

Module Demo.

(** Compiled models are stood for by the text they were compiled from. *)
Definition obj : Type := string.

Definition magic (c : compression) : bytes :=
  match c with
  | gzip => [x1f; x8b]
  | lzma => [xfd; x37]
  | bz2 => [x42; x5a]
  | io => []
  end.

Definition bad_stream (c : compression) : exn :=
  match c with
  | gzip => BadGzipFile
  | lzma => LZMAError
  | bz2 => OSError
  | io => ValueError
  end.

(** A container format of two magic bytes and the payload. *)
Definition pack (c : compression) (_ : keywords obj) (b : bytes) : bytes :=
  magic c ++ b.

Definition unpack (c : compression) (b : bytes) : outcome bytes :=
  match b with
  | m1 :: m2 :: payload =>
      if bool_decide ([m1; m2] = magic c) then Ok payload
      else Raise (bad_stream c)
  | _ => Raise EOFError
  end.

(** An object format of one tag byte and the payload. *)
Definition dumps (v : value obj) : outcome bytes :=
  match v with
  | VNone => Ok [x4e]
  | VBool true => Ok [x88]
  | VBool false => Ok [x89]
  | VStr s => Ok (x58 :: list_byte_of_string s)
  | VBytes b => Ok (x42 :: b)
  | VObj o => Ok (x63 :: list_byte_of_string o)
  end.

Definition loads (b : bytes) : outcome (value obj) :=
  match b with
  | [] => Raise EOFError
  | tag :: payload =>
      if bool_decide (tag = x4e) then
        if bool_decide (payload = []) then Ok VNone else Raise UnpicklingError
      else if bool_decide (tag = x88) then
        if bool_decide (payload = []) then Ok (VBool true)
        else Raise UnpicklingError
      else if bool_decide (tag = x89) then
        if bool_decide (payload = []) then Ok (VBool false)
        else Raise UnpicklingError
      else if bool_decide (tag = x58) then Ok (VStr (string_of_list_byte payload))
      else if bool_decide (tag = x42) then Ok (VBytes payload)
      else if bool_decide (tag = x63) then Ok (VObj (string_of_list_byte payload))
      else Raise UnpicklingError
  end.

Definition add_module (name : string) (s : env) : env :=
  {| files := files s;
     read_error := read_error s;
     write_error := write_error s;
     modules := {[name]} ∪ modules s;
     pip_has_main := pip_has_main s |}.

(** [pip install package] succeeds and makes the package importable. *)
Definition pip (args : list string) (s : env) : outcome unit * env :=
  match args with
  | [_; package] => (Ok tt, add_module package s)
  | _ => (Raise (Error "SystemExit"), s)
  end.

Fixpoint keyword (name : string) (kw : keywords obj) : option (value obj) :=
  match kw with
  | [] => None
  | (k, v) :: kw' => if String.eqb k name then Some v else keyword name kw'
  end.

(** The builder compiles the text given as [model_code], and fails when
    there is none. *)
Definition builder (kw : keywords obj) (_ : env) : outcome (value obj) :=
  match keyword "model_code" kw with
  | Some (VStr code) => Ok (VObj code)
  | _ => Raise (Error "ValueError")
  end.

Definition libraries : externals obj :=
  {| compress := pack;
     decompress := unpack;
     open_kwargs_error := fun _ _ => Some TypeError;
     stream_kwargs_error := fun _ _ => None;
     foreign_read := fun _ _ _ s => (Raise ValueError, s);
     foreign_write := fun _ _ _ _ _ s => (Raise ValueError, s);
     pickle_dumps := dumps;
     pickle_loads_bytes := loads;
     pip_main := pip;
     pip_internal_main := pip;
     pystan_StanModel := builder |}.

(** An empty disk on which everything may be opened. *)
Definition fresh (mods : list string) : env :=
  {| files := ∅;
     read_error := fun _ => None;
     write_error := fun _ => None;
     modules := list_to_set mods;
     pip_has_main := true |}.

Definition with_file (path : string) (content : bytes) (s : env) : env :=
  set_files (<[path := content]> (files s)) s.

(** [StanModel(model_code=code, cache_path=cache_path)] *)
Definition compile (code : string) (cache_path : option string)
  : M (value obj) :=
  StanModel libraries VNone (VStr "utf-8") (VStr "anon_model") (VStr code)
    VNone VNone VNone VNone (VBool false) (VBool true) VNone cache_path [].

(** [StanModel(cache_path=cache_path)]: no model is given. *)
Definition compile_nothing (cache_path : option string) : M (value obj) :=
  StanModel libraries VNone (VStr "utf-8") (VStr "anon_model") VNone
    VNone VNone VNone VNone (VBool false) (VBool true) VNone cache_path [].

(** The keywords the builder receives from [compile code cache_path]. *)
Definition kw (code : string) : keywords obj :=
  stan_model_kwargs VNone (VStr "utf-8") (VStr "anon_model") (VStr code)
    VNone VNone VNone VNone (VBool false) (VBool true) VNone [].

(** The keywords the builder receives from [compile_nothing cache_path]. *)
Definition no_model_kw : keywords obj :=
  stan_model_kwargs VNone (VStr "utf-8") (VStr "anon_model") VNone
    VNone VNone VNone VNone (VBool false) (VBool true) VNone [].

(** A disk that holds the pickled model ["old"] at [m.pkl]. *)
Definition cached : env :=
  with_file "m.pkl" (x63 :: list_byte_of_string "old") (fresh ["pystan"]).

(** A disk that holds at [m.gz] three bytes that are no gzip stream. *)
Definition corrupt : env :=
  with_file "m.gz" [x00; x01; x02] (fresh ["pystan"]).

End Demo.

(** ** Reading a run: the installer and the paths accessed *)

Section Protocol.

Context {obj : Type}.

Definition is_pip (ev : event obj) : bool :=
  match ev with
  | EvPip _ _ => true
  | _ => false
  end.

(** The calls of [pip]'s entry points. *)
Definition pip_calls (t : list (event obj)) : list (event obj) :=
  List.filter is_pip t.

(** The path a file access is made on. *)
Definition event_path (ev : event obj) : option string :=
  match ev with
  | EvExists p | EvOpen _ p _ => Some p
  | _ => None
  end.

End Protocol.

(** ** Further surroundings to run the program in *)

Module Scenario.



(** The same disk, with every path refused for writing. *)
Definition read_only (s : env) : env :=
  {| files := files s;
     read_error := read_error s;
     write_error := fun _ => Some PermissionError;
     modules := modules s;
     pip_has_main := pip_has_main s |}.

(** A [pip] of the newer layout, without the attribute [main]. *)
Definition newer_pip (s : env) : env :=
  {| files := files s;
     read_error := read_error s;
     write_error := write_error s;
     modules := modules s;
     pip_has_main := false |}.

(** A disk with the pickled model ["old"] at [m.pkl], and neither [pystan]
    nor [pip] to import. *)
Definition bare_cached : env :=
  Demo.with_file "m.pkl" (x63 :: list_byte_of_string "old") (Demo.fresh []).

(** Two files side by side. *)
Definition two_files : env :=
  Demo.with_file "notes.txt" [x68; x69] Demo.cached.

(** A disk that holds at [m.gz] three bytes that are no gzip stream, with
    [pip] to import but not [pystan]. *)
Definition corrupt_unavailable : env :=
  Demo.with_file "m.gz" [x00; x01; x02] (Demo.fresh ["pip"]).

(** Compression levels, as the text of their number. *)
Definition valid_level (level : string) : bool :=
  existsb (String.eqb level) ["1"; "2"; "3"; "4"; "5"; "6"; "7"; "8"; "9"].

(** [open] takes the one option [compresslevel], for [gzip] and [bz2];
    [bz2] checks the level before it opens the file. *)
Definition leveled_open_error (c : compression) (kw : keywords Demo.obj)
  : option exn :=
  match kw with
  | [(k, VObj level)] =>
      if String.eqb k "compresslevel"
      then match c with
           | gzip => None
           | bz2 => if valid_level level then None else Some ValueError
           | _ => Some TypeError
           end
      else Some TypeError
  | _ => Some TypeError
  end.

(** [gzip] checks the level when it sets up the stream, the file being
    open already. *)
Definition leveled_stream_error (c : compression) (kw : keywords Demo.obj)
  : option exn :=
  match c, kw with
  | gzip, [(_, VObj level)] =>
      if valid_level level then None else Some ValueError
  | _, _ => None
  end.

Definition leveled : externals Demo.obj :=
  {| compress := Demo.pack;
     decompress := Demo.unpack;
     open_kwargs_error := leveled_open_error;
     stream_kwargs_error := leveled_stream_error;
     foreign_read := fun _ _ _ s => (Raise ValueError, s);
     foreign_write := fun _ _ _ _ _ s => (Raise ValueError, s);
     pickle_dumps := Demo.dumps;
     pickle_loads_bytes := Demo.loads;
     pip_main := Demo.pip;
     pip_internal_main := Demo.pip;
     pystan_StanModel := Demo.builder |}.

End Scenario.

(** ** Properties *)

Section Properties.

Context {obj : Type} (X : externals obj).

(** *** Traces *)

Lemma builder_calls_app (t1 t2 : list (event obj)) :
  builder_calls (t1 ++ t2) = (builder_calls t1 + builder_calls t2)%nat.
Proof. unfold builder_calls. rewrite List.filter_app. apply length_app. Qed.

Lemma file_accesses_app (t1 t2 : list (event obj)) :
  file_accesses (t1 ++ t2) = file_accesses t1 ++ file_accesses t2.
Proof. apply List.filter_app. Qed.

Lemma writes_app (t1 t2 : list (event obj)) :
  writes (t1 ++ t2) = writes t1 ++ writes t2.
Proof. apply List.filter_app. Qed.

Lemma builder_calls_In (t : list (event obj)) kw :
  In (EvBuild kw) t -> builder_calls t <> 0%nat.
Proof.
  unfold builder_calls. intros H E. apply length_zero_iff_nil in E.
  assert (Hin : In (EvBuild kw) (List.filter is_build t))
    by (apply List.filter_In; split; [assumption|reflexivity]).
  rewrite E in Hin. destruct Hin.
Qed.

(** *** The monad *)

Lemma bind_ok {A B : Type} (m : M A) (k : A -> M B) (s s1 : env) (a : A)
    (t1 : list (event obj)) :
  m s = (Ok a, s1, t1) ->
  bind m k s = (let '(r, s2, t2) := k a s1 in (r, s2, t1 ++ t2)).
Proof. intros H. unfold bind. rewrite H. reflexivity. Qed.

Lemma bind_raise {A B : Type} (m : M A) (k : A -> M B) (s s1 : env) (e : exn)
    (t1 : list (event obj)) :
  m s = (Raise e, s1, t1) ->
  bind m k s = (Raise e, s1, t1).
Proof. intros H. unfold bind. rewrite H. reflexivity. Qed.

(** *** The codec dispatcher *)

Lemma _read_rb c path s :
  _read X path c "rb" true s = (unpickled X c path s, s, [EvOpen c path "rb"]).
Proof.
  unfold _read, bind, open_read, unpickled, pickle_loads. simpl.
  destruct (stored_bytes path s) as [b|e]; [|reflexivity].
  destruct (decode X c b) as [b'|e]; reflexivity.
Qed.

Lemma read_pickle_extension path mode pickling :
  is_pickle_extension (snd (splitext path)) = true ->
  read X path mode pickling = _read X path io "rb" true.
Proof.
  intros H. unfold read. rewrite H.
  replace (ext_dict_get (snd (splitext path))) with io; [reflexivity|].
  unfold is_pickle_extension in H. apply bool_decide_eq_true in H.
  set_unfold in H.
  destruct H as [-> | [-> | []]]; vm_compute; reflexivity.
Qed.

Lemma read_other_extension path mode pickling :
  is_pickle_extension (snd (splitext path)) = false ->
  read X path mode pickling = _read X path (codec_of path) mode pickling.
Proof. intros H. unfold read. rewrite H. reflexivity. Qed.

Lemma save_pickle_extension path o mode pickling kw :
  is_pickle_extension (snd (splitext path)) = true ->
  save X path o mode pickling kw = _save X path o io "wb" true kw.
Proof.
  intros H. unfold save. rewrite H.
  replace (ext_dict_get (snd (splitext path))) with io; [reflexivity|].
  unfold is_pickle_extension in H. apply bool_decide_eq_true in H.
  set_unfold in H.
  destruct H as [-> | [-> | []]]; vm_compute; reflexivity.
Qed.

Lemma save_other_extension path o mode pickling kw :
  is_pickle_extension (snd (splitext path)) = false ->
  save X path o mode pickling kw = _save X path o (codec_of path) mode pickling kw.
Proof. intros H. unfold save. rewrite H. reflexivity. Qed.

(** [read(path)] with the defaults: one open for reading of the codec of
    the extension, and the environment is left as it was. *)
Lemma read_default path s :
  read X path "rb" true s =
  (unpickled X (codec_of path) path s, s, [EvOpen (codec_of path) path "rb"]).
Proof.
  destruct (is_pickle_extension (snd (splitext path))) eqn:E.
  - rewrite (read_pickle_extension _ _ _ E), _read_rb.
    replace (codec_of path) with io; [reflexivity|].
    unfold codec_of. unfold is_pickle_extension in E.
    apply bool_decide_eq_true in E. set_unfold in E.
    destruct E as [-> | [-> | []]]; vm_compute; reflexivity.
  - rewrite (read_other_extension _ _ _ E). apply _read_rb.
Qed.

Lemma _save_wb c path o kw s :
  _save X path o c "wb" true kw s =
  match pickle_dumps X o with
  | Ok b => open_write X c path "wb" kw (VBytes b) s
  | Raise e => (Raise e, s, [])
  end.
Proof.
  unfold _save, bind, pickle_dumps_value.
  destruct (pickle_dumps X o) as [b|e]; [|reflexivity].
  destruct (open_write X c path "wb" kw (VBytes b) s) as [[r s2] t2].
  reflexivity.
Qed.

Lemma codec_of_pickle_extension path :
  is_pickle_extension (snd (splitext path)) = true -> codec_of path = io.
Proof.
  intros E. unfold codec_of. unfold is_pickle_extension in E.
  apply bool_decide_eq_true in E. set_unfold in E.
  destruct E as [-> | [-> | []]]; vm_compute; reflexivity.
Qed.

(** [save(path, obj)] with the default mode and pickling. *)
Lemma save_default path o kw s :
  save X path o "wb" true kw s =
  match pickle_dumps X o with
  | Ok b => open_write X (codec_of path) path "wb" kw (VBytes b) s
  | Raise e => (Raise e, s, [])
  end.
Proof.
  destruct (is_pickle_extension (snd (splitext path))) eqn:E.
  - rewrite (save_pickle_extension _ _ _ _ _ E), _save_wb.
    rewrite (codec_of_pickle_extension _ E). reflexivity.
  - rewrite (save_other_extension _ _ _ _ _ E). apply _save_wb.
Qed.

(** A save that returns has pickled the object and stored its encoding. *)
Lemma save_default_ok path o kw s s1 t1 :
  save X path o "wb" true kw s = (Ok tt, s1, t1) ->
  exists b,
    pickle_dumps X o = Ok b /\ path <> "" /\ write_error s path = None /\
    s1 = set_files (<[path := encode X (codec_of path) kw b]> (files s)) s /\
    t1 = [EvOpen (codec_of path) path "wb"].
Proof.
  rewrite save_default.
  destruct (pickle_dumps X o) as [b|e]; [|discriminate].
  unfold open_write. simpl.
  destruct (kwargs_error X (codec_of path) kw); [discriminate|].
  case_bool_decide; [discriminate|].
  destruct (write_error s path); [discriminate|].
  destruct (late_kwargs_error X (codec_of path) kw); [discriminate|].
  intros E. injection E as <- <-. exists b. auto.
Qed.

Lemma decode_encode c kw b :
  codec_roundtrip X -> decode X c (encode X c kw b) = Ok b.
Proof. intros H. destruct c; simpl; auto; apply H; discriminate. Qed.

(** What was stored by a save is what unpickling the file yields. *)
Lemma unpickled_after_store c path kw o b s :
  codec_roundtrip X -> pickle_roundtrip X ->
  pickle_dumps X o = Ok b -> path <> "" -> read_error s path = None ->
  unpickled X c path (set_files (<[path := encode X c kw b]> (files s)) s)
  = Ok o.
Proof.
  intros Hc Hp Hd Hne Hr. unfold unpickled, stored_bytes. simpl.
  rewrite bool_decide_eq_false_2 by assumption.
  rewrite Hr, lookup_insert_eq, decode_encode by assumption.
  apply Hp, Hd.
Qed.


(** *** The import of the builder *)

Lemma import_or_install_available s :
  "pystan" ∈ modules s -> import_or_install X s = (Ok true, s, []).
Proof.
  intros H. unfold import_or_install, try_except_all, bind, import_module.
  rewrite bool_decide_eq_true_2 by assumption. reflexivity.
Qed.

Lemma import_or_install_missing s :
  "pystan" ∉ modules s ->
  import_or_install X s =
  match install X "pystan" s with
  | (Ok _, s0, t0) => (Ok false, s0, t0)
  | (Raise e, s0, t0) => (Raise e, s0, t0)
  end.
Proof.
  intros H. unfold import_or_install, try_except_all.
  unfold bind at 1. unfold import_module at 1.
  rewrite bool_decide_eq_false_2 by assumption.
  unfold bind. destruct (install X "pystan" s) as [[[[]|e] s0] t0]; simpl;
    rewrite ?app_nil_r; reflexivity.
Qed.

(** The installer calls neither the builder nor the file store. *)
Lemma install_trace package s :
  builder_calls (trace_of (install X package s)) = 0%nat /\
  file_accesses (trace_of (install X package s)) = [].
Proof.
  unfold install, bind, import_module.
  case_bool_decide; [|split; reflexivity].
  destruct (pip_has_main s).
  - destruct (pip_main X ["install"; package] s) as [r s']. split; reflexivity.
  - case_bool_decide; [|split; reflexivity].
    destruct (pip_internal_main X ["install"; package] s) as [r s'].
    split; reflexivity.
Qed.

Lemma import_or_install_trace s :
  builder_calls (trace_of (import_or_install X s)) = 0%nat /\
  file_accesses (trace_of (import_or_install X s)) = [].
Proof.
  destruct (decide ("pystan" ∈ modules s)) as [H|H].
  - rewrite import_or_install_available by assumption. split; reflexivity.
  - rewrite import_or_install_missing by assumption.
    pose proof (install_trace "pystan" s) as Ht.
    destruct (install X "pystan" s) as [[[[]|e] s0] t0]; exact Ht.
Qed.

(** The local name [pystan] is bound only if the import succeeded. *)
Lemma import_or_install_bound s s0 t0 :
  import_or_install X s = (Ok true, s0, t0) ->
  "pystan" ∈ modules s /\ s0 = s /\ t0 = [].
Proof.
  destruct (decide ("pystan" ∈ modules s)) as [H|H].
  - rewrite import_or_install_available by assumption.
    intros E. injection E as <- <-. auto.
  - rewrite import_or_install_missing by assumption.
    destruct (install X "pystan" s) as [[[[]|e] s1] t1]; discriminate.
Qed.

(** *** The extension table *)

Lemma ext_dict_get_table extension :
  ext_dict_get extension = fst (spec_table extension).
Proof.
  unfold spec_table.
  repeat case_bool_decide; simpl; set_unfold;
    try (destruct_or?; subst; try contradiction; vm_compute; reflexivity).
  unfold ext_dict_get, ext_dict.
  rewrite !lookup_insert_ne by (intros <-; tauto).
  rewrite lookup_empty. reflexivity.
Qed.

Lemma is_pickle_extension_table extension :
  is_pickle_extension extension = snd (spec_table extension).
Proof.
  unfold spec_table, is_pickle_extension.
  repeat case_bool_decide; simpl; set_unfold;
    try reflexivity; destruct_or?; subst; try contradiction;
    exfalso; intuition congruence.
Qed.

(** C5. For every path, [read] and [save] resolve the codec from the
    extension exactly as the specification's table says (an exact,
    case-sensitive match on the keys): [.gz], [.gzip], [.zip] go to gzip,
    [.xz], [.lzma] to lzma, [.bz2] to bzip2, [.pkl], [.pickle] to the raw
    codec with pickling forced on, and every other extension to the raw
    codec with the caller's mode and pickling, which is the explicit use of
    the raw codec ([_read] and [_save] on [io]). *)
Theorem extension_table_dispatch path mode pickling o kw :
  let '(c, forced) := spec_table (snd (splitext path)) in
  read X path mode pickling =
    _read X path c (if forced then "rb" else mode) (forced || pickling) /\
  save X path o mode pickling kw =
    _save X path o c (if forced then "wb" else mode) (forced || pickling) kw.
Proof.
  unfold read, save.
  rewrite ext_dict_get_table, is_pickle_extension_table.
  destruct (spec_table (snd (splitext path))) as [c [|]]; simpl;
    split; reflexivity.
Qed.

(** C6. For every path whose extension is [.pkl] or [.pickle], whatever
    mode and pickling flag the caller passes, [read] unpickles the bytes of
    the file and [save] pickles the object before writing it, both through
    the raw codec. *)
Theorem pickle_extension_forces_serialization path mode pickling o kw s :
  snd (splitext path) = ".pkl" \/ snd (splitext path) = ".pickle" ->
  read X path mode pickling s =
    (match stored_bytes path s with
     | Ok b => pickle_loads_bytes X b
     | Raise e => Raise e
     end, s, [EvOpen io path "rb"]) /\
  save X path o mode pickling kw s =
    match pickle_dumps X o with
    | Ok b => open_write X io path "wb" kw (VBytes b) s
    | Raise e => (Raise e, s, [])
    end.
Proof.
  intros H.
  assert (E : is_pickle_extension (snd (splitext path)) = true).
  { unfold is_pickle_extension. apply bool_decide_eq_true. set_unfold. tauto. }
  rewrite (read_pickle_extension _ _ _ E), _read_rb.
  rewrite (save_pickle_extension _ _ _ _ _ E), _save_wb.
  split; reflexivity.
Qed.

(** C4. For every path (so for every extension of the table, and for the
    fallback) and every object, with mode and pickling at their defaults:
    when [save(path, obj)] returns and the file may be read, [read(path)]
    returns the object that was saved, provided the codecs and the pickler
    undo what they did. *)
Theorem save_read_roundtrip path o kw s :
  codec_roundtrip X -> pickle_roundtrip X ->
  outcome_of (save X path o "wb" true kw s) = Ok tt ->
  read_error s path = None ->
  read X path "rb" true (env_of (save X path o "wb" true kw s)) =
    (Ok o, env_of (save X path o "wb" true kw s),
     [EvOpen (codec_of path) path "rb"]).
Proof.
  intros Hc Hp Hs Hr.
  destruct (save X path o "wb" true kw s) as [[r s1] t1] eqn:E.
  unfold outcome_of, env_of in *. simpl in *. subst r.
  apply save_default_ok in E as (b & Hd & Hne & _ & -> & _).
  rewrite read_default.
  rewrite (unpickled_after_store _ _ _ _ _ _ Hc Hp Hd Hne Hr). reflexivity.
Qed.

(** The calls made by lines 187-190: none, or one call of [pip]. *)
Lemma import_or_install_writes_nothing s :
  trace_of (import_or_install X s) = [] \/
  exists ev, trace_of (import_or_install X s) = [ev] /\ is_write ev = false.
Proof.
  destruct (decide ("pystan" ∈ modules s)) as [H|H].
  - rewrite import_or_install_available by assumption. left; reflexivity.
  - rewrite import_or_install_missing by assumption.
    assert (Hi : trace_of (install X "pystan" s) = [] \/
                 exists ev, trace_of (install X "pystan" s) = [ev] /\
                            is_write ev = false).
    { unfold install, bind, import_module.
      case_bool_decide; [|left; reflexivity].
      destruct (pip_has_main s).
      - destruct (pip_main X ["install"; "pystan"] s) as [r s'].
        right. eexists. split; reflexivity.
      - case_bool_decide; [|left; reflexivity].
        destruct (pip_internal_main X ["install"; "pystan"] s) as [r s'].
        right. eexists. split; reflexivity. }
    destruct (install X "pystan" s) as [[[[]|e] s0] t0]; exact Hi.
Qed.

(** *** The cache probe and the persistence step *)

Lemma probe_none s : probe X None s = (Ok (None, true), s, []).
Proof. reflexivity. Qed.

Lemma probe_some p s :
  probe X (Some p) s =
  if bool_decide (p <> "") && bool_decide (is_Some (files s !! p))
  then match unpickled X (codec_of p) p s with
       | Ok v =>
           (Ok (Some v, false), s, [EvExists p; EvOpen (codec_of p) p "rb"])
       | Raise e =>
           if except_matches [OSError; TypeError] e
           then (Ok (None, true), s, [EvExists p; EvOpen (codec_of p) p "rb"])
           else (Raise e, s, [EvExists p; EvOpen (codec_of p) p "rb"])
       end
  else (Ok (None, true), s, [EvExists p]).
Proof.
  unfold probe, bind, os_path_exists.
  destruct (bool_decide (p <> "") && bool_decide (is_Some (files s !! p)));
    [|reflexivity].
  unfold try_except, bind. rewrite read_default.
  destruct (unpickled X (codec_of p) p s) as [v|e]; [reflexivity|].
  destruct (except_matches [OSError; TypeError] e); reflexivity.
Qed.

Lemma truthy_spec p : truthy p = true <-> p <> "".
Proof.
  unfold truthy. destruct (String.eqb_spec p ""); simpl; split; congruence.
Qed.

Lemma persist_nonempty p m s :
  p <> "" -> persist X (Some p) m s = save X p m "wb" true [] s.
Proof.
  intros H. unfold persist. apply truthy_spec in H. rewrite H. reflexivity.
Qed.

Lemma open_write_trace c path mode kw o s :
  trace_of (open_write X c path mode kw o s) = [EvOpen c path mode].
Proof.
  unfold open_write. destruct (String.eqb mode "wb").
  - destruct (kwargs_error X c kw); [reflexivity|].
    case_bool_decide; [reflexivity|].
    destruct (write_error s path); [reflexivity|].
    destruct (late_kwargs_error X c kw); [reflexivity|].
    destruct o; reflexivity.
  - destruct (foreign_write X c path mode kw o s). reflexivity.
Qed.

(** A save makes no call but (at most) its one open for writing. *)
Lemma save_default_trace path o kw s :
  builder_calls (trace_of (save X path o "wb" true kw s)) = 0%nat.
Proof.
  rewrite save_default. destruct (pickle_dumps X o); [|reflexivity].
  rewrite open_write_trace. reflexivity.
Qed.

(** The probe changes nothing, builds nothing and writes nothing. *)
Lemma probe_frame cache_path s :
  env_of (probe X cache_path s) = s /\
  builder_calls (trace_of (probe X cache_path s)) = 0%nat /\
  writes (trace_of (probe X cache_path s)) = [].
Proof.
  destruct cache_path as [p|]; [rewrite probe_some|rewrite probe_none].
  - destruct (bool_decide (p <> "") && bool_decide (is_Some (files s !! p)));
      [|repeat split; reflexivity].
    destruct (unpickled X (codec_of p) p s) as [v|e];
      [repeat split; reflexivity|].
    destruct (except_matches [OSError; TypeError] e); repeat split; reflexivity.
  - repeat split; reflexivity.
Qed.

(** *** The cached builder, step by step *)

Section Cached_builder.

Variables file charset model_name model_code stanc_ret include_paths
  boost_lib eigen_lib verbose obfuscate_model_name extra_compile_args
  : value obj.
Variable kwargs : keywords obj.

Local Abbreviation kw :=
  (stan_model_kwargs file charset model_name model_code stanc_ret
     include_paths boost_lib eigen_lib verbose obfuscate_model_name
     extra_compile_args kwargs).

Local Abbreviation run cache_path :=
  (StanModel X file charset model_name model_code stanc_ret include_paths
     boost_lib eigen_lib verbose obfuscate_model_name extra_compile_args
     cache_path kwargs).

Lemma StanModel_steps cache_path s :
  run cache_path s =
  match import_or_install X s with
  | (Raise e, s0, t0) => (Raise e, s0, t0)
  | (Ok pystan, s0, t0) =>
      match probe X cache_path s0 with
      | (Raise e, s1, t1) => (Raise e, s1, t0 ++ t1)
      | (Ok (Some m, false), s1, t1) => (Ok m, s1, t0 ++ t1)
      | (Ok (None, false), s1, t1) => (Raise UnboundLocalError, s1, t0 ++ t1)
      | (Ok (_, true), s1, t1) =>
          if pystan
          then match pystan_StanModel X kw s1 with
               | Raise e => (Raise e, s1, t0 ++ t1 ++ [EvBuild kw])
               | Ok m =>
                   match persist X cache_path m s1 with
                   | (Ok _, s2, t2) => (Ok m, s2, t0 ++ t1 ++ EvBuild kw :: t2)
                   | (Raise e, s2, t2) =>
                       (Raise e, s2, t0 ++ t1 ++ EvBuild kw :: t2)
                   end
               end
          else (Raise UnboundLocalError, s1, t0 ++ t1)
      end
  end.
Proof.
  unfold StanModel. unfold bind at 1.
  destruct (import_or_install X s) as [[[pystan|e] s0] t0]; [|reflexivity].
  unfold bind at 1.
  destruct (probe X cache_path s0) as [[[[stan_model compile_model]|e] s1] t1];
    [|reflexivity].
  destruct compile_model.
  - destruct pystan.
    + unfold bind, call_builder, ret.
      destruct (pystan_StanModel X kw s1) as [m|e]; simpl.
      * destruct (persist X cache_path m s1) as [[[[]|e] s2] t2]; simpl;
          rewrite ?app_nil_r; destruct stan_model; reflexivity.
      * destruct stan_model; reflexivity.
    + unfold bind, raise. simpl. rewrite ?app_nil_r.
      destruct stan_model; reflexivity.
  - unfold bind, ret, raise. simpl.
    destruct stan_model; simpl; rewrite ?app_nil_r; reflexivity.
Qed.


(** With the builder importable and nothing to probe or persist, the call
    is the builder's call and nothing else. *)
Lemma StanModel_builds cache_path s t1 :
  "pystan" ∈ modules s ->
  probe X cache_path s = (Ok (None, true), s, t1) ->
  run cache_path s =
  match pystan_StanModel X kw s with
  | Raise e => (Raise e, s, t1 ++ [EvBuild kw])
  | Ok m =>
      match persist X cache_path m s with
      | (Ok _, s2, t2) => (Ok m, s2, t1 ++ EvBuild kw :: t2)
      | (Raise e, s2, t2) => (Raise e, s2, t1 ++ EvBuild kw :: t2)
      end
  end.
Proof.
  intros Hm Hp.
  rewrite StanModel_steps, (import_or_install_available _ Hm), Hp.
  reflexivity.
Qed.

(** The calls made before the builder is reached are never file accesses
    of the cache logic when there is no path to probe. *)
Lemma StanModel_unbound_trace cache_path s :
  "pystan" ∉ modules s ->
  builder_calls (trace_of (run cache_path s)) = 0%nat /\
  writes (trace_of (run cache_path s)) = [].
Proof.
  intros Hm. rewrite StanModel_steps, (import_or_install_missing _ Hm).
  pose proof (install_trace "pystan" s) as [Hb Hf].
  destruct (install X "pystan" s) as [[[[]|e] s0] t0];
    unfold trace_of in *; simpl in *.
  - assert (Hw : writes t0 = []).
    { clear -Hf. induction t0 as [|[] t IH]; simpl in *;
        try discriminate; auto. }
    pose proof (probe_frame cache_path s0) as (_ & Hpb & Hpw).
    destruct (probe X cache_path s0) as [[[[[m|] [|]]|e] s1] t1];
      unfold trace_of in *; simpl in *;
      rewrite builder_calls_app, writes_app, Hb, Hw, Hpb, Hpw; auto.
  - split; [assumption|].
    clear -Hf. induction t0 as [|[] t IH]; simpl in *; try discriminate; auto.
Qed.

(** C7 (as the code has it). With [cache_path] omitted ([None]) the call
    makes no access to the file system at all, neither an existence test
    nor an open. When [pystan] can be imported the call is exactly one
    invocation of the builder on the forwarded parameters: its outcome is
    the builder's and the environment is left as it was. When [pystan]
    cannot be imported the builder is not invoked: a call whose
    installation returned normally raises [UnboundLocalError] instead. *)
Theorem omitted_cache_path s :
  file_accesses (trace_of (run None s)) = [] /\
  ("pystan" ∈ modules s ->
   run None s = (pystan_StanModel X kw s, s, [EvBuild kw]) /\
   builder_calls (trace_of (run None s)) = 1%nat) /\
  ("pystan" ∉ modules s ->
   builder_calls (trace_of (run None s)) = 0%nat /\
   forall s0 t0,
     install X "pystan" s = (Ok tt, s0, t0) ->
     run None s = (Raise UnboundLocalError, s0, t0)).
Proof.
  split; [|split].
  - rewrite StanModel_steps.
    pose proof (import_or_install_trace s) as [_ Hf].
    destruct (import_or_install X s) as [[[[|]|e] s0] t0];
      rewrite ?probe_none; unfold trace_of in *; simpl in *; try assumption.
    + destruct (pystan_StanModel X kw s0); simpl;
        rewrite file_accesses_app, Hf; reflexivity.
    + rewrite app_nil_r. assumption.
  - intros Hm.
    assert (E : run None s = (pystan_StanModel X kw s, s, [EvBuild kw])).
    { rewrite (StanModel_builds None s [] Hm (probe_none s)).
      destruct (pystan_StanModel X kw s); reflexivity. }
    rewrite E. split; reflexivity.
  - intros Hm. split; [apply (StanModel_unbound_trace None s Hm)|].
    intros s0 t0 Hi.
    rewrite StanModel_steps, (import_or_install_missing _ Hm), Hi, probe_none.
    rewrite app_nil_r. reflexivity.
Qed.

(** C10 (as the code has it). With the empty string as [cache_path]: the
    existence test fails, so nothing is read; the persistence step is
    skipped, because the empty string is false; the only access to the file
    system is that existence test, and nothing is written. When [pystan]
    can be imported the call is the existence test followed by exactly one
    invocation of the builder, whose outcome is returned, the environment
    left as it was. When [pystan] cannot be imported the builder is not
    invoked: a call whose installation returned normally raises
    [UnboundLocalError] after the existence test. *)
Theorem empty_cache_path s :
  os_path_exists (obj := obj) "" s = (Ok false, s, [EvExists ""]) /\
  (forall m, persist X (Some "") m s = (Ok tt, s, [])) /\
  writes (trace_of (run (Some "") s)) = [] /\
  ("pystan" ∈ modules s ->
   run (Some "") s = (pystan_StanModel X kw s, s, [EvExists ""; EvBuild kw]) /\
   builder_calls (trace_of (run (Some "") s)) = 1%nat) /\
  ("pystan" ∉ modules s ->
   builder_calls (trace_of (run (Some "") s)) = 0%nat /\
   forall s0 t0,
     install X "pystan" s = (Ok tt, s0, t0) ->
     run (Some "") s = (Raise UnboundLocalError, s0, t0 ++ [EvExists ""])).
Proof.
  assert (Hp : forall s', probe X (Some "") s'
                          = (Ok (None, true), s', [EvExists ""]))
    by (intros s'; rewrite probe_some; reflexivity).
  assert (E : "pystan" ∈ modules s ->
              run (Some "") s
              = (pystan_StanModel X kw s, s, [EvExists ""; EvBuild kw])).
  { intros Hm. rewrite (StanModel_builds (Some "") s _ Hm (Hp s)).
    destruct (pystan_StanModel X kw s); reflexivity. }
  split; [reflexivity|]. split; [reflexivity|]. split; [|split].
  - destruct (decide ("pystan" ∈ modules s)) as [Hm|Hm].
    + rewrite (E Hm). reflexivity.
    + apply (StanModel_unbound_trace (Some "") s Hm).
  - intros Hm. split; [apply E; assumption|].
    rewrite E by assumption. reflexivity.
  - intros Hm. split; [apply (StanModel_unbound_trace (Some "") s Hm)|].
    intros s0 t0 Hi.
    rewrite StanModel_steps, (import_or_install_missing _ Hm), Hi, Hp.
    reflexivity.
Qed.

(** C8. In every call in which the builder is invoked and raises, the call
    raises that same error, the environment (so the file at the cache path,
    present or not) is left as it was, and nothing is opened for writing. *)
Theorem builder_failure_atomic cache_path s e :
  In (EvBuild kw) (trace_of (run cache_path s)) ->
  pystan_StanModel X kw s = Raise e ->
  outcome_of (run cache_path s) = Raise e /\
  env_of (run cache_path s) = s /\
  writes (trace_of (run cache_path s)) = [].
Proof.
  intros Hin Hb.
  destruct (decide ("pystan" ∈ modules s)) as [Hm|Hm].
  - revert Hin.
    rewrite StanModel_steps, (import_or_install_available _ Hm).
    pose proof (probe_frame cache_path s) as (Hs & Hpb & Hpw).
    destruct (probe X cache_path s) as [[[[[m|] [|]]|e'] s1] t1];
      unfold outcome_of, env_of, trace_of in *; simpl in *; subst s1;
      rewrite ?Hb; simpl; intros Hin;
      try (apply builder_calls_In in Hin; contradiction);
      rewrite writes_app, Hpw; repeat split; reflexivity.
  - apply builder_calls_In in Hin.
    destruct (StanModel_unbound_trace cache_path s Hm) as [H0 _].
    contradiction.
Qed.

(** C9 (as the code has it). When [pystan] cannot be imported at the call,
    the builder is not invoked in that call, whatever the installer did:
    the handler installs the package but never binds the name [pystan], so
    with no cache to load from, a call whose installation returned normally
    raises [UnboundLocalError] where the builder should have been invoked. *)
Theorem install_does_not_bind_builder cache_path s :
  "pystan" ∉ modules s ->
  builder_calls (trace_of (run cache_path s)) = 0%nat /\
  (forall s0 t0,
     install X "pystan" s = (Ok tt, s0, t0) ->
     run None s = (Raise UnboundLocalError, s0, t0)).
Proof.
  intros Hm. split; [apply (StanModel_unbound_trace cache_path s Hm)|].
  intros s0 t0 Hi.
  rewrite StanModel_steps, (import_or_install_missing _ Hm), Hi, probe_none.
  rewrite app_nil_r. reflexivity.
Qed.

(** C3 (as the code has it). When the import of lines 187-190 has
    completed and the probe's [read(cache_path)] of an existing file raises
    [e]: if [e] is of no class among [OSError], [TypeError] and their
    subclasses, it is raised to the caller, the builder is not invoked and
    nothing is written, whether [pystan] was imported or not; an unpickling
    error is of such a class. If [e] is an [OSError] or a [TypeError], it
    is caught; then, with [pystan] imported, the builder is invoked exactly
    once and, if it returns a model, [save] is called exactly once on the
    cache path with that model, so that a save that succeeds leaves the
    file overwritten; but with [pystan] not imported (the installer having
    returned), the call raises [UnboundLocalError]: nothing is rebuilt and
    nothing is written. *)
Theorem probe_error_policy p s pystan s0 t0 e s1 t1 :
  import_or_install X s = (Ok pystan, s0, t0) ->
  p <> "" -> is_Some (files s0 !! p) ->
  read X p "rb" true s0 = (Raise e, s1, t1) ->
  (isinstance e OSError || isinstance e TypeError = false ->
   run (Some p) s = (Raise e, s0, t0 ++ EvExists p :: t1) /\
   builder_calls (trace_of (run (Some p) s)) = 0%nat /\
   writes (trace_of (run (Some p) s)) = []) /\
  (isinstance e OSError || isinstance e TypeError = true ->
   pystan = true ->
   builder_calls (trace_of (run (Some p) s)) = 1%nat /\
   run (Some p) s =
     match pystan_StanModel X kw s0 with
     | Ok m =>
         let '(r, s2, t2) := save X p m "wb" true [] s0 in
         (match r with Ok _ => Ok m | Raise e2 => Raise e2 end, s2,
          t0 ++ EvExists p :: t1 ++ EvBuild kw :: t2)
     | Raise e' => (Raise e', s0, t0 ++ EvExists p :: t1 ++ [EvBuild kw])
     end /\
   (forall m b,
      pystan_StanModel X kw s0 = Ok m ->
      pickle_dumps X m = Ok b -> write_error s0 p = None ->
      run (Some p) s =
        (Ok m, set_files (<[p := encode X (codec_of p) [] b]> (files s0)) s0,
         [EvExists p; EvOpen (codec_of p) p "rb"; EvBuild kw;
          EvOpen (codec_of p) p "wb"]))) /\
  (isinstance e OSError || isinstance e TypeError = true ->
   pystan = false ->
   run (Some p) s = (Raise UnboundLocalError, s0, t0 ++ EvExists p :: t1) /\
   builder_calls (trace_of (run (Some p) s)) = 0%nat /\
   writes (trace_of (run (Some p) s)) = []) /\
  isinstance UnpicklingError OSError || isinstance UnpicklingError TypeError
  = false.
Proof.
  intros Hi Hne Hf Hr. rewrite read_default in Hr. injection Hr as Hu <- <-.
  assert (Hc : except_matches [OSError; TypeError] e
               = isinstance e OSError || isinstance e TypeError).
  { unfold except_matches. simpl. rewrite orb_false_r. reflexivity. }
  assert (Hcond : bool_decide (p <> "") && bool_decide (is_Some (files s0 !! p))
                  = true)
    by (rewrite !bool_decide_eq_true_2 by assumption; reflexivity).
  pose proof (import_or_install_trace s) as [Hb0 _].
  rewrite Hi in Hb0. unfold trace_of in Hb0. simpl in Hb0.
  assert (Hw0 : writes t0 = []).
  { destruct (import_or_install_writes_nothing s) as [E|(ev & E & Hev)];
      rewrite Hi in E; unfold trace_of in E; simpl in E; subst t0;
      [reflexivity|unfold writes; simpl; rewrite Hev; reflexivity]. }
  split; [|split; [|split; [|reflexivity]]].
  - intros Hnot.
    assert (E : run (Some p) s
                = (Raise e, s0,
                   t0 ++ [EvExists p; EvOpen (codec_of p) p "rb"])).
    { rewrite StanModel_steps, Hi.
      rewrite probe_some, Hcond, Hu, Hc, Hnot. reflexivity. }
    rewrite E. unfold trace_of. simpl.
    rewrite builder_calls_app, writes_app, Hb0, Hw0. auto.
  - intros Hcaught ->.
    apply import_or_install_bound in Hi as (Hm & -> & ->).
    assert (Hp : probe X (Some p) s
                 = (Ok (None, true), s,
                    [EvExists p; EvOpen (codec_of p) p "rb"])).
    { rewrite probe_some, Hcond, Hu, Hc, Hcaught. reflexivity. }
    assert (E : run (Some p) s =
              match pystan_StanModel X kw s with
              | Ok m =>
                  let '(r, s2, t2) := save X p m "wb" true [] s in
                  (match r with Ok _ => Ok m | Raise e2 => Raise e2 end, s2,
                   EvExists p :: [EvOpen (codec_of p) p "rb"]
                   ++ EvBuild kw :: t2)
              | Raise e' =>
                  (Raise e', s,
                   EvExists p :: [EvOpen (codec_of p) p "rb"] ++ [EvBuild kw])
              end).
    { rewrite (StanModel_builds (Some p) s _ Hm Hp).
      destruct (pystan_StanModel X kw s) as [m|e']; [|reflexivity].
      rewrite (persist_nonempty p m s Hne).
      destruct (save X p m "wb" true [] s) as [[[[]|e2] s2] t2]; reflexivity. }
    split; [|split; [exact E|]].
    + rewrite E. destruct (pystan_StanModel X kw s) as [m|e']; [|reflexivity].
      pose proof (save_default_trace p m [] s) as Ht.
      destruct (save X p m "wb" true [] s) as [[r s2] t2].
      unfold trace_of in *. simpl in *.
      unfold builder_calls in *. simpl. rewrite Ht. reflexivity.
    + intros m b Hb Hd Hw. rewrite E, Hb, save_default, Hd.
      unfold open_write. simpl.
      rewrite bool_decide_eq_false_2 by (intros Heq; contradiction).
      rewrite Hw. reflexivity.
  - intros Hcaught ->.
    assert (E : run (Some p) s
                = (Raise UnboundLocalError, s0,
                   t0 ++ [EvExists p; EvOpen (codec_of p) p "rb"])).
    { rewrite StanModel_steps, Hi.
      rewrite probe_some, Hcond, Hu, Hc, Hcaught. reflexivity. }
    rewrite E. unfold trace_of. simpl.
    rewrite builder_calls_app, writes_app, Hb0, Hw0. auto.
Qed.

(** C2 (amended). Cache miss: for every non-empty [cache_path] at which no
    file exists, with [pystan] importable at the call, the builder is
    invoked exactly once, on the forwarded parameters; and when it returns
    a model that can be pickled, the path being open to writing and
    reading, the call saves the pickled model at the path under the codec
    of its extension, returns the model, and the next call on the same path
    returns that model without invoking the builder (the codecs and the
    pickler undoing what they did). *)
Theorem cache_miss_builds_and_persists p s :
  "pystan" ∈ modules s ->
  p <> "" ->
  files s !! p = None ->
  (builder_calls (trace_of (run (Some p) s)) = 1%nat /\
   In (EvBuild kw) (trace_of (run (Some p) s))) /\
  (forall m b,
     codec_roundtrip X -> pickle_roundtrip X ->
     pystan_StanModel X kw s = Ok m ->
     pickle_dumps X m = Ok b ->
     write_error s p = None -> read_error s p = None ->
     miss_then_hit X (fun cache_path => run cache_path) kw p s /\
     run (Some p) s =
       (Ok m, env_of (save X p m "wb" true [] s),
        [EvExists p; EvBuild kw; EvOpen (codec_of p) p "wb"])).
Proof.
  intros Hm Hne Hf.
  assert (Hp : probe X (Some p) s = (Ok (None, true), s, [EvExists p])).
  { rewrite probe_some, Hf.
    rewrite (bool_decide_eq_false_2 (is_Some None)) by (intros [? ?]; discriminate).
    rewrite andb_false_r. reflexivity. }
  split.
  - rewrite (StanModel_builds (Some p) s _ Hm Hp).
    destruct (pystan_StanModel X kw s) as [m|e];
      [|split; [reflexivity|simpl; auto]].
    rewrite (persist_nonempty p m s Hne).
    pose proof (save_default_trace p m [] s) as Ht.
    destruct (save X p m "wb" true [] s) as [[[[]|e] s2] t2];
      unfold trace_of in *; simpl in *;
      (split; [unfold builder_calls in *; simpl; rewrite Ht; reflexivity
              |auto]).
  - intros m b Hcr Hpr Hb Hd Hw Hr.
    set (s1 := set_files (<[p := encode X (codec_of p) [] b]> (files s)) s).
    assert (Hs : save X p m "wb" true [] s
                 = (Ok tt, s1, [EvOpen (codec_of p) p "wb"])).
    { rewrite save_default, Hd. unfold open_write. simpl.
      rewrite bool_decide_eq_false_2 by (intros Heq; contradiction).
      rewrite Hw. reflexivity. }
    assert (E1 : run (Some p) s
                 = (Ok m, s1,
                    [EvExists p; EvBuild kw; EvOpen (codec_of p) p "wb"])).
    { rewrite (StanModel_builds (Some p) s _ Hm Hp), Hb.
      rewrite (persist_nonempty p m s Hne), Hs. reflexivity. }
    assert (Hu : unpickled X (codec_of p) p s1 = Ok m)
      by (apply unpickled_after_store; assumption).
    assert (E2 : run (Some p) s1
                 = (Ok m, s1, [EvExists p; EvOpen (codec_of p) p "rb"])).
    { rewrite StanModel_steps.
      rewrite (import_or_install_available s1) by exact Hm.
      rewrite probe_some, Hu.
      rewrite bool_decide_eq_true_2 by assumption.
      rewrite bool_decide_eq_true_2
        by (unfold s1; simpl; rewrite lookup_insert_eq; eauto).
      reflexivity. }
    split.
    + exists m, b, s1, [EvExists p; EvBuild kw; EvOpen (codec_of p) p "wb"].
      split; [exact E1|]. split; [reflexivity|]. split; [simpl; auto|].
      split; [reflexivity|]. split; [exact Hd|].
      split; [unfold s1; simpl; apply lookup_insert_eq|].
      exists s1, [EvExists p; EvOpen (codec_of p) p "rb"].
      split; [exact E2|reflexivity].
    + rewrite E1, Hs. reflexivity.
Qed.

End Cached_builder.

End Properties.

(** ** The program on the concrete libraries *)

Lemma demo_codec_roundtrip : codec_roundtrip Demo.libraries.
Proof. intros [] kw b H; try reflexivity. contradiction. Qed.

Lemma demo_pickle_roundtrip : pickle_roundtrip Demo.libraries.
Proof.
  intros v b. simpl. unfold Demo.dumps.
  destruct v as [|[|]|str|bs|o]; intros E; injection E as <-; simpl;
    rewrite ?string_of_list_byte_of_string; reflexivity.
Qed.

Lemma demo_importable : "pystan" ∈ modules (Demo.fresh ["pystan"]).
Proof. apply (bool_decide_unpack _). vm_compute. exact I. Qed.

Lemma demo_corrupt_importable : "pystan" ∈ modules Demo.corrupt.
Proof. apply (bool_decide_unpack _). vm_compute. exact I. Qed.

Lemma demo_missing : "pystan" ∉ modules (Demo.fresh ["pip"]).
Proof. apply (proj1 (bool_decide_eq_false _)). vm_compute. reflexivity. Qed.

(** [os.path.splitext] and the table on some paths. *)
Example splitext_plain : splitext "m.pkl" = ("m", ".pkl").
Proof. reflexivity. Qed.

Example splitext_last_dot : splitext "run/a.tar.gz" = ("run/a.tar", ".gz").
Proof. reflexivity. Qed.

Example splitext_dot_in_directory : splitext "cache.d/model" = ("cache.d/model", "").
Proof. reflexivity. Qed.

Example splitext_hidden_file : splitext "dir/.pkl" = ("dir/.pkl", "").
Proof. reflexivity. Qed.

Example ext_dict_get_zip : ext_dict_get ".zip" = gzip.
Proof. vm_compute. reflexivity. Qed.

Example ext_dict_get_upper : ext_dict_get ".GZ" = io.
Proof. vm_compute. reflexivity. Qed.

(** The round trip on one path for each key of the table, for an unmapped
    extension and for no extension at all. *)
Example roundtrip_on_every_extension :
  Forall
    (fun path =>
       read Demo.libraries path "rb" true
         (env_of (save Demo.libraries path (VObj "model {}") "wb" true []
                    (Demo.fresh [])))
       = (Ok (VObj "model {}"),
          env_of (save Demo.libraries path (VObj "model {}") "wb" true []
                    (Demo.fresh [])),
          [EvOpen (codec_of path) path "rb"]))
    ["m.gz"; "m.gzip"; "m.zip"; "m.xz"; "m.lzma"; "m.bz2"; "m.pkl";
     "m.pickle"; "m.dat"; "model"].
Proof. repeat constructor. Qed.

(** The match on the extension is exact and case-sensitive. *)
Example upper_case_is_unmapped :
  codec_of "m.GZ" = io /\ codec_of "m.gz" = gzip /\ codec_of "m.gzx" = io /\
  codec_of "gz" = io /\ codec_of "dir/.gz" = io.
Proof. vm_compute. repeat split; reflexivity. Qed.


(** Counterexample to C2 as stated: the empty string is a provided path at
    which no file exists, every collaborator works, and yet the call is no
    miss-then-hit: it saves nothing. *)
Lemma cache_miss_empty_path_not_persisted :
  files (Demo.fresh ["pystan"]) !! "" = None /\
  pystan_StanModel Demo.libraries (Demo.kw "model {}") (Demo.fresh ["pystan"])
    = Ok (VObj "model {}") /\
  Demo.compile "model {}" (Some "") (Demo.fresh ["pystan"])
    = (Ok (VObj "model {}"), Demo.fresh ["pystan"],
       [EvExists ""; EvBuild (Demo.kw "model {}")]) /\
  builder_calls
    (trace_of (Demo.compile "model {}" (Some "") (Demo.fresh ["pystan"])))
    = 1%nat /\
  ~ miss_then_hit Demo.libraries (Demo.compile "model {}")
      (Demo.kw "model {}") "" (Demo.fresh ["pystan"]).
Proof.
  assert (E : Demo.compile "model {}" (Some "") (Demo.fresh ["pystan"])
              = (Ok (VObj "model {}"), Demo.fresh ["pystan"],
                 [EvExists ""; EvBuild (Demo.kw "model {}")]))
    by reflexivity.
  repeat split; try reflexivity.
  intros (m & b & s1 & t1 & Hcall & _ & _ & Hw & _).
  rewrite E in Hcall. injection Hcall as _ _ <-. discriminate Hw.
Qed.

(** Witness of C2: a miss on [m.gz] on an empty disk, then a hit. *)
Lemma cache_miss_builds_and_persists_witness :
  files (Demo.fresh ["pystan"]) !! "m.gz" = None /\
  builder_calls
    (trace_of (Demo.compile "model {}" (Some "m.gz") (Demo.fresh ["pystan"])))
    = 1%nat /\
  miss_then_hit Demo.libraries (Demo.compile "model {}")
    (Demo.kw "model {}") "m.gz" (Demo.fresh ["pystan"]) /\
  Demo.compile "model {}" (Some "m.gz") (Demo.fresh ["pystan"])
    = (Ok (VObj "model {}"),
       env_of (save Demo.libraries "m.gz" (VObj "model {}") "wb" true []
                 (Demo.fresh ["pystan"])),
       [EvExists "m.gz"; EvBuild (Demo.kw "model {}");
        EvOpen (codec_of "m.gz") "m.gz" "wb"]).
Proof.
  assert (Hne : "m.gz" <> "") by discriminate.
  assert (Hf : files (Demo.fresh ["pystan"]) !! "m.gz" = None) by reflexivity.
  destruct (cache_miss_builds_and_persists Demo.libraries
              VNone (VStr "utf-8") (VStr "anon_model") (VStr "model {}") VNone
              VNone VNone VNone (VBool false) (VBool true) VNone []
              "m.gz" (Demo.fresh ["pystan"]) demo_importable Hne Hf)
    as [[Hb _] H].
  destruct (H (VObj "model {}") (x63 :: list_byte_of_string "model {}")
              demo_codec_roundtrip demo_pickle_roundtrip
              eq_refl eq_refl eq_refl eq_refl) as [Hmh E].
  split; [exact Hf|]. split; [exact Hb|]. split; [exact Hmh|exact E].
Defined.

(** Witness of C3: three bytes that are no gzip stream at [m.gz] make the
    probe raise [BadGzipFile], an [OSError]. With [pystan] installed by the
    call, nothing is rebuilt; with [pystan] imported, one build and one
    overwrite. *)
Lemma probe_error_policy_witness :
  (read Demo.libraries "m.gz" "rb" true
     (Demo.add_module "pystan" Scenario.corrupt_unavailable)
     = (Raise BadGzipFile,
        Demo.add_module "pystan" Scenario.corrupt_unavailable,
        [EvOpen gzip "m.gz" "rb"]) /\
   Demo.compile "model {}" (Some "m.gz") Scenario.corrupt_unavailable
     = (Raise UnboundLocalError,
        Demo.add_module "pystan" Scenario.corrupt_unavailable,
        [EvPip "pip.main" ["install"; "pystan"]]
        ++ EvExists "m.gz" :: [EvOpen gzip "m.gz" "rb"]) /\
   builder_calls
     (trace_of (Demo.compile "model {}" (Some "m.gz")
                  Scenario.corrupt_unavailable)) = 0%nat /\
   writes
     (trace_of (Demo.compile "model {}" (Some "m.gz")
                  Scenario.corrupt_unavailable)) = []) /\
  (builder_calls
     (trace_of (Demo.compile "model {}" (Some "m.gz") Demo.corrupt)) = 1%nat /\
   Demo.compile "model {}" (Some "m.gz") Demo.corrupt
     = (Ok (VObj "model {}"),
        set_files
          (<["m.gz" := encode Demo.libraries (codec_of "m.gz") []
                         (x63 :: list_byte_of_string "model {}")]>
             (files Demo.corrupt)) Demo.corrupt,
        [EvExists "m.gz"; EvOpen (codec_of "m.gz") "m.gz" "rb";
         EvBuild (Demo.kw "model {}"); EvOpen (codec_of "m.gz") "m.gz" "wb"])).
Proof.
  assert (Hne : "m.gz" <> "") by discriminate.
  split.
  - assert (Hi : import_or_install Demo.libraries Scenario.corrupt_unavailable
                 = (Ok false,
                    Demo.add_module "pystan" Scenario.corrupt_unavailable,
                    [EvPip "pip.main" ["install"; "pystan"]]))
      by reflexivity.
    assert (Hr : read Demo.libraries "m.gz" "rb" true
                   (Demo.add_module "pystan" Scenario.corrupt_unavailable)
                 = (Raise BadGzipFile,
                    Demo.add_module "pystan" Scenario.corrupt_unavailable,
                    [EvOpen gzip "m.gz" "rb"])) by reflexivity.
    assert (Hf : is_Some
                   (files (Demo.add_module "pystan"
                             Scenario.corrupt_unavailable) !! "m.gz"))
      by (exists [x00; x01; x02]; reflexivity).
    destruct (probe_error_policy Demo.libraries
              VNone (VStr "utf-8") (VStr "anon_model") (VStr "model {}") VNone
              VNone VNone VNone (VBool false) (VBool true) VNone []
              "m.gz" Scenario.corrupt_unavailable false
              (Demo.add_module "pystan" Scenario.corrupt_unavailable)
              [EvPip "pip.main" ["install"; "pystan"]] BadGzipFile
              (Demo.add_module "pystan" Scenario.corrupt_unavailable)
              [EvOpen gzip "m.gz" "rb"] Hi Hne Hf Hr)
      as (_ & _ & Hunbound & _).
    split; [exact Hr|]. exact (Hunbound eq_refl eq_refl).
  - assert (Hi : import_or_install Demo.libraries Demo.corrupt
                 = (Ok true, Demo.corrupt, [])) by reflexivity.
    assert (Hr : read Demo.libraries "m.gz" "rb" true Demo.corrupt
                 = (Raise BadGzipFile, Demo.corrupt,
                    [EvOpen gzip "m.gz" "rb"])) by reflexivity.
    assert (Hf : is_Some (files Demo.corrupt !! "m.gz"))
      by (exists [x00; x01; x02]; reflexivity).
    destruct (probe_error_policy Demo.libraries
              VNone (VStr "utf-8") (VStr "anon_model") (VStr "model {}") VNone
              VNone VNone VNone (VBool false) (VBool true) VNone []
              "m.gz" Demo.corrupt true Demo.corrupt [] BadGzipFile
              Demo.corrupt [EvOpen gzip "m.gz" "rb"] Hi Hne Hf Hr)
      as (_ & Hbound & _).
    destruct (Hbound eq_refl eq_refl) as (Hb & _ & Hw).
    split; [exact Hb|]. apply Hw; reflexivity.
Defined.

(** Witness of C4: a model saved to and read from [m.xz]. *)
Lemma save_read_roundtrip_witness :
  outcome_of (save Demo.libraries "m.xz" (VObj "model {}") "wb" true []
                (Demo.fresh [])) = Ok tt /\
  read Demo.libraries "m.xz" "rb" true
    (env_of (save Demo.libraries "m.xz" (VObj "model {}") "wb" true []
               (Demo.fresh [])))
  = (Ok (VObj "model {}"),
     env_of (save Demo.libraries "m.xz" (VObj "model {}") "wb" true []
               (Demo.fresh [])),
     [EvOpen (codec_of "m.xz") "m.xz" "rb"]).
Proof.
  split; [reflexivity|].
  apply (save_read_roundtrip Demo.libraries "m.xz" (VObj "model {}") []
           (Demo.fresh []) demo_codec_roundtrip demo_pickle_roundtrip);
    reflexivity.
Defined.

(** Witness of C6: on [m.pkl], pickling asked off and a text mode. *)
Lemma pickle_extension_forces_serialization_witness :
  snd (splitext "m.pkl") = ".pkl" /\
  read Demo.libraries "m.pkl" "rt" false Demo.cached
    = (Ok (VObj "old"), Demo.cached, [EvOpen io "m.pkl" "rb"]) /\
  outcome_of (save Demo.libraries "m.pkl" (VObj "new") "wt" false []
                Demo.cached) = Ok tt /\
  files (env_of (save Demo.libraries "m.pkl" (VObj "new") "wt" false []
                   Demo.cached)) !! "m.pkl"
    = Some (x63 :: list_byte_of_string "new").
Proof.
  assert (He : snd (splitext "m.pkl") = ".pkl") by reflexivity.
  destruct (pickle_extension_forces_serialization Demo.libraries "m.pkl"
              "rt" false (VObj "new") [] Demo.cached (or_introl He))
    as [Hr _].
  destruct (pickle_extension_forces_serialization Demo.libraries "m.pkl"
              "wt" false (VObj "new") [] Demo.cached (or_introl He))
    as [_ Hs].
  split; [exact He|]. split; [rewrite Hr; reflexivity|].
  rewrite Hs. split; reflexivity.
Defined.

(** Witness of C7: no cache path. With [pystan] installed by the call,
    the builder is not invoked; with [pystan] imported, on a disk that
    holds a cached model, it is invoked once and no file is accessed. *)
Lemma omitted_cache_path_witness :
  (install Demo.libraries "pystan" (Demo.fresh ["pip"])
     = (Ok tt, Demo.add_module "pystan" (Demo.fresh ["pip"]),
        [EvPip "pip.main" ["install"; "pystan"]]) /\
   Demo.compile "model {}" None (Demo.fresh ["pip"])
     = (Raise UnboundLocalError,
        Demo.add_module "pystan" (Demo.fresh ["pip"]),
        [EvPip "pip.main" ["install"; "pystan"]]) /\
   builder_calls
     (trace_of (Demo.compile "model {}" None (Demo.fresh ["pip"]))) = 0%nat) /\
  (file_accesses (trace_of (Demo.compile "model {}" None Demo.cached)) = [] /\
   Demo.compile "model {}" None Demo.cached
     = (Ok (VObj "model {}"), Demo.cached, [EvBuild (Demo.kw "model {}")]) /\
   builder_calls (trace_of (Demo.compile "model {}" None Demo.cached))
     = 1%nat).
Proof.
  split.
  - assert (Hi : install Demo.libraries "pystan" (Demo.fresh ["pip"])
                 = (Ok tt, Demo.add_module "pystan" (Demo.fresh ["pip"]),
                    [EvPip "pip.main" ["install"; "pystan"]]))
      by reflexivity.
    destruct (omitted_cache_path Demo.libraries
              VNone (VStr "utf-8") (VStr "anon_model") (VStr "model {}") VNone
              VNone VNone VNone (VBool false) (VBool true) VNone []
              (Demo.fresh ["pip"])) as (_ & _ & H).
    destruct (H demo_missing) as [Hb Hu].
    split; [exact Hi|]. split; [exact (Hu _ _ Hi)|exact Hb].
  - destruct (omitted_cache_path Demo.libraries
              VNone (VStr "utf-8") (VStr "anon_model") (VStr "model {}") VNone
              VNone VNone VNone (VBool false) (VBool true) VNone []
              Demo.cached) as (Hf & Hb & _).
    split; [exact Hf|]. apply Hb.
    apply (bool_decide_unpack _). vm_compute. exact I.
Defined.

(** Witness of C8: no model is given, so the builder raises; the bytes at
    [m.gz], which the probe could not read, are still there. *)
Lemma builder_failure_atomic_witness :
  In (EvBuild Demo.no_model_kw)
     (trace_of (Demo.compile_nothing (Some "m.gz") Demo.corrupt)) /\
  pystan_StanModel Demo.libraries Demo.no_model_kw Demo.corrupt
    = Raise (Error "ValueError") /\
  outcome_of (Demo.compile_nothing (Some "m.gz") Demo.corrupt)
    = Raise (Error "ValueError") /\
  env_of (Demo.compile_nothing (Some "m.gz") Demo.corrupt) = Demo.corrupt /\
  writes (trace_of (Demo.compile_nothing (Some "m.gz") Demo.corrupt)) = [].
Proof.
  split; [right; right; left; reflexivity|]. split; [reflexivity|].
  apply (builder_failure_atomic Demo.libraries
           VNone (VStr "utf-8") (VStr "anon_model") VNone VNone
           VNone VNone VNone (VBool false) (VBool true) VNone []
           (Some "m.gz") Demo.corrupt (Error "ValueError")).
  - right; right; left; reflexivity.
  - reflexivity.
Defined.

(** Witness of C9: [pip] installs [pystan], which is importable when the
    call ends; the call has raised [UnboundLocalError] all the same. *)
Lemma install_does_not_bind_builder_witness :
  install Demo.libraries "pystan" (Demo.fresh ["pip"])
    = (Ok tt, Demo.add_module "pystan" (Demo.fresh ["pip"]),
       [EvPip "pip.main" ["install"; "pystan"]]) /\
  "pystan" ∈ modules (Demo.add_module "pystan" (Demo.fresh ["pip"])) /\
  Demo.compile "model {}" None (Demo.fresh ["pip"])
    = (Raise UnboundLocalError, Demo.add_module "pystan" (Demo.fresh ["pip"]),
       [EvPip "pip.main" ["install"; "pystan"]]) /\
  builder_calls (trace_of (Demo.compile "model {}" None (Demo.fresh ["pip"])))
    = 0%nat.
Proof.
  assert (Hi : install Demo.libraries "pystan" (Demo.fresh ["pip"])
               = (Ok tt, Demo.add_module "pystan" (Demo.fresh ["pip"]),
                  [EvPip "pip.main" ["install"; "pystan"]])) by reflexivity.
  destruct (install_does_not_bind_builder Demo.libraries
              VNone (VStr "utf-8") (VStr "anon_model") (VStr "model {}") VNone
              VNone VNone VNone (VBool false) (VBool true) VNone []
              None (Demo.fresh ["pip"]) demo_missing) as [Hb Hu].
  split; [exact Hi|].
  split; [apply (bool_decide_unpack _); vm_compute; exact I|].
  split; [exact (Hu _ _ Hi)|exact Hb].
Defined.

(** Witness of C10: the empty string as cache path. With [pystan]
    installed by the call, the builder is not invoked; with [pystan]
    imported, on an empty disk, it is invoked once and nothing is
    written. *)
Lemma empty_cache_path_witness :
  (Demo.compile "model {}" (Some "") (Demo.fresh ["pip"])
     = (Raise UnboundLocalError,
        Demo.add_module "pystan" (Demo.fresh ["pip"]),
        [EvPip "pip.main" ["install"; "pystan"]] ++ [EvExists ""]) /\
   builder_calls
     (trace_of (Demo.compile "model {}" (Some "") (Demo.fresh ["pip"])))
     = 0%nat) /\
  (Demo.compile "model {}" (Some "") (Demo.fresh ["pystan"])
     = (Ok (VObj "model {}"), Demo.fresh ["pystan"],
        [EvExists ""; EvBuild (Demo.kw "model {}")]) /\
   builder_calls
     (trace_of (Demo.compile "model {}" (Some "") (Demo.fresh ["pystan"])))
     = 1%nat /\
   writes
     (trace_of (Demo.compile "model {}" (Some "") (Demo.fresh ["pystan"])))
     = []).
Proof.
  split.
  - assert (Hi : install Demo.libraries "pystan" (Demo.fresh ["pip"])
                 = (Ok tt, Demo.add_module "pystan" (Demo.fresh ["pip"]),
                    [EvPip "pip.main" ["install"; "pystan"]]))
      by reflexivity.
    destruct (empty_cache_path Demo.libraries
              VNone (VStr "utf-8") (VStr "anon_model") (VStr "model {}") VNone
              VNone VNone VNone (VBool false) (VBool true) VNone []
              (Demo.fresh ["pip"])) as (_ & _ & _ & _ & H).
    destruct (H demo_missing) as [Hb Hu].
    split; [exact (Hu _ _ Hi)|exact Hb].
  - destruct (empty_cache_path Demo.libraries
              VNone (VStr "utf-8") (VStr "anon_model") (VStr "model {}") VNone
              VNone VNone VNone (VBool false) (VBool true) VNone []
              (Demo.fresh ["pystan"])) as (_ & _ & Hw & Hb & _).
    destruct (Hb demo_importable) as [E Hc].
    split; [exact E|]. split; [exact Hc|exact Hw].
Defined.

(** ** Further properties of the codec dispatcher *)

Section Dispatcher_properties.

Context {obj : Type} (X : externals obj).

(** Without pickling, [_save] is the open-and-write alone. *)
Lemma _save_raw path (o : value obj) c mode kw s :
  _save X path o c mode false kw s = open_write X c path mode kw o s.
Proof.
  unfold _save, bind, ret.
  destruct (open_write X c path mode kw o s) as [[r s2] t2]. reflexivity.
Qed.

(** [_read] in mode ["rb"], with or without unpickling. *)
Lemma _read_rb_flag c path pickling s :
  _read X path c "rb" pickling s =
  (match stored_bytes path s with
   | Ok b =>
       match decode X c b with
       | Ok b' => if pickling then pickle_loads_bytes X b' else Ok (VBytes b')
       | Raise e => Raise e
       end
   | Raise e => Raise e
   end, s, [EvOpen c path "rb"]).
Proof.
  unfold _read, bind, open_read, pickle_loads, ret. simpl.
  destruct (stored_bytes path s) as [b|e]; [|reflexivity].
  destruct (decode X c b) as [b'|e]; [|reflexivity].
  destruct pickling; reflexivity.
Qed.

(** What [open_write] in mode ["wb"] leaves of the environment. *)
Lemma open_write_wb_frame c path kw (o : value obj) s q :
  q <> path ->
  files (env_of (open_write X c path "wb" kw o s)) !! q = files s !! q /\
  read_error (env_of (open_write X c path "wb" kw o s)) = read_error s /\
  write_error (env_of (open_write X c path "wb" kw o s)) = write_error s /\
  modules (env_of (open_write X c path "wb" kw o s)) = modules s.
Proof.
  intros Hq. unfold open_write. simpl.
  destruct (kwargs_error X c kw); [auto|].
  case_bool_decide; [auto|].
  destruct (write_error s path) eqn:Ew; [auto|].
  destruct (late_kwargs_error X c kw);
    [unfold env_of; simpl; rewrite lookup_insert_ne by congruence; auto|].
  destruct o; unfold env_of; simpl;
    rewrite lookup_insert_ne by congruence; auto.
Qed.


(** X2. Text passed with pickling off destroys the file: for an extension
    other than [.pkl] and [.pickle], [save(path, text, pickling=False)]
    opens the file for writing, which truncates it, and only then raises
    [TypeError]; what is left at the path is the empty stream of the codec. *)
Theorem text_without_pickling_truncates path str s :
  is_pickle_extension (snd (splitext path)) = false ->
  path <> "" -> write_error s path = None ->
  save X path (VStr str) "wb" false [] s =
    (Raise TypeError,
     set_files (<[path := encode X (codec_of path) [] []]> (files s)) s,
     [EvOpen (codec_of path) path "wb"]).
Proof.
  intros E Hne Hw. rewrite (save_other_extension _ _ _ _ _ _ E), _save_raw.
  unfold open_write. simpl.
  rewrite bool_decide_eq_false_2 by assumption. rewrite Hw. reflexivity.
Qed.

(** X3. Round trip of raw bytes: for an extension other than [.pkl] and
    [.pickle], bytes saved with pickling off are read back as they were
    with pickling off, and are handed to the unpickler with pickling on. *)
Theorem raw_bytes_roundtrip path b kw pickling s :
  is_pickle_extension (snd (splitext path)) = false ->
  codec_roundtrip X ->
  outcome_of (save X path (VBytes b) "wb" false kw s) = Ok tt ->
  read_error s path = None ->
  read X path "rb" pickling (env_of (save X path (VBytes b) "wb" false kw s))
  = (if pickling then pickle_loads_bytes X b else Ok (VBytes b),
     env_of (save X path (VBytes b) "wb" false kw s),
     [EvOpen (codec_of path) path "rb"]).
Proof.
  intros E Hc Hs Hr.
  rewrite (read_other_extension _ _ _ _ E), _read_rb_flag.
  revert Hs. rewrite (save_other_extension _ _ _ _ _ _ E), _save_raw.
  unfold open_write. simpl.
  destruct (kwargs_error X (codec_of path) kw); [discriminate|].
  case_bool_decide as Hne; [discriminate|].
  destruct (write_error s path); [discriminate|].
  destruct (late_kwargs_error X (codec_of path) kw); [discriminate|].
  intros _.
  unfold env_of, stored_bytes. simpl.
  rewrite bool_decide_eq_false_2 by assumption.
  rewrite Hr, lookup_insert_eq, decode_encode by assumption. reflexivity.
Qed.

(** X4. The stored stream is the pickle under the codec: for an extension
    other than [.pkl] and [.pickle], reading with pickling off a file that
    was saved with pickling on returns the bytes the pickler produced. *)
Theorem raw_read_of_pickled_file path o b kw s :
  is_pickle_extension (snd (splitext path)) = false ->
  codec_roundtrip X ->
  pickle_dumps X o = Ok b ->
  outcome_of (save X path o "wb" true kw s) = Ok tt ->
  read_error s path = None ->
  read X path "rb" false (env_of (save X path o "wb" true kw s))
  = (Ok (VBytes b), env_of (save X path o "wb" true kw s),
     [EvOpen (codec_of path) path "rb"]).
Proof.
  intros E Hc Hd Hs Hr.
  destruct (save X path o "wb" true kw s) as [[r s1] t1] eqn:Es.
  unfold outcome_of, env_of in *. simpl in *. subst r.
  apply save_default_ok in Es as (b' & Hd' & Hne & _ & -> & _).
  rewrite Hd in Hd'. injection Hd' as <-.
  rewrite (read_other_extension _ _ _ _ E), _read_rb_flag.
  unfold stored_bytes. simpl.
  rewrite bool_decide_eq_false_2 by assumption.
  rewrite Hr, lookup_insert_eq, decode_encode by assumption. reflexivity.
Qed.

(** X5. [save] touches its own path only: in mode ["wb"], whether it
    returns or raises, every other file keeps its content, and the access
    rights and the importable modules are as before. *)
Theorem save_touches_only_its_path path o pickling kw s q :
  q <> path ->
  files (env_of (save X path o "wb" pickling kw s)) !! q = files s !! q /\
  read_error (env_of (save X path o "wb" pickling kw s)) = read_error s /\
  write_error (env_of (save X path o "wb" pickling kw s)) = write_error s /\
  modules (env_of (save X path o "wb" pickling kw s)) = modules s.
Proof.
  intros Hq.
  assert (H : forall c pk,
    files (env_of (_save X path o c "wb" pk kw s)) !! q = files s !! q /\
    read_error (env_of (_save X path o c "wb" pk kw s)) = read_error s /\
    write_error (env_of (_save X path o c "wb" pk kw s)) = write_error s /\
    modules (env_of (_save X path o c "wb" pk kw s)) = modules s).
  { intros c [|].
    - rewrite _save_wb. destruct (pickle_dumps X o); [|auto].
      apply open_write_wb_frame; assumption.
    - rewrite _save_raw. apply open_write_wb_frame; assumption. }
  unfold save. destruct (is_pickle_extension (snd (splitext path))); apply H.
Qed.

(** X6. The last save wins: saving over a file that a save has just
    written is, in outcome, environment and calls, the same as saving on
    the original disk; nothing of the first save is left. *)
Theorem save_overwrites path o1 o2 kw1 kw2 s :
  outcome_of (save X path o1 "wb" true kw1 s) = Ok tt ->
  outcome_of (save X path o2 "wb" true kw2 s) = Ok tt ->
  save X path o2 "wb" true kw2 (env_of (save X path o1 "wb" true kw1 s)) =
  save X path o2 "wb" true kw2 s.
Proof.
  intros H1 H2.
  destruct (save X path o1 "wb" true kw1 s) as [[r1 s1] t1] eqn:E1.
  unfold outcome_of, env_of in *. simpl in H1 |- *. subst r1.
  apply save_default_ok in E1 as (b1 & _ & _ & _ & -> & _).
  revert H2. rewrite !save_default.
  destruct (pickle_dumps X o2) as [b2|e]; [|discriminate].
  unfold open_write. simpl.
  destruct (kwargs_error X (codec_of path) kw2); [discriminate|].
  case_bool_decide; [discriminate|].
  destruct (write_error s path); [discriminate|].
  destruct (late_kwargs_error X (codec_of path) kw2); [discriminate|].
  intros _.
  unfold set_files. simpl. rewrite insert_insert_eq. reflexivity.
Qed.

End Dispatcher_properties.

(** ** Further properties of the installer and of the cached builder *)

Section Builder_properties.

Context {obj : Type} (X : externals obj).

(** The calls of [install]: none, or one of the entry point that [pip]
    offers, on [install] and the package. *)
Lemma install_trace_shape package s :
  trace_of (install X package s) = [] \/
  ("pip" ∈ modules s /\
   trace_of (install X package s)
   = [EvPip (if pip_has_main s then "pip.main" else "pip._internal.main")
        ["install"; package]]).
Proof.
  unfold install, bind, import_module.
  case_bool_decide as Hp; [|left; reflexivity].
  destruct (pip_has_main s).
  - destruct (pip_main X ["install"; package] s) as [r s'].
    right. split; [assumption|reflexivity].
  - case_bool_decide; [|left; reflexivity].
    destruct (pip_internal_main X ["install"; package] s) as [r s'].
    right. split; [assumption|reflexivity].
Qed.

(** X7. [install(package)] calls [pip] at most once, through [pip.main]
    when [pip] has that attribute and through [pip._internal.main]
    otherwise, always on the arguments [install] and the package; when
    [pip] cannot be imported it calls nothing, raises the import error and
    leaves the environment as it was. *)
Theorem install_calls_pip_at_most_once package s :
  (length (trace_of (install X package s)) <= 1)%nat /\
  (forall ev, In ev (trace_of (install X package s)) ->
     ev = EvPip (if pip_has_main s then "pip.main" else "pip._internal.main")
            ["install"; package]) /\
  ("pip" ∉ modules s ->
   install X package s = (Raise ModuleNotFoundError, s, [])).
Proof.
  split; [|split].
  - destruct (install_trace_shape package s) as [-> | [_ ->]]; simpl; lia.
  - intros ev Hin.
    destruct (install_trace_shape package s) as [E | [_ E]];
      rewrite E in Hin; simpl in Hin; [contradiction|].
    destruct Hin as [<- | []]. reflexivity.
  - intros Hp. unfold install, bind, import_module.
    rewrite bool_decide_eq_false_2 by assumption. reflexivity.
Qed.

Lemma import_or_install_trace_shape s :
  trace_of (import_or_install X s) = [] \/
  (("pystan" ∉ modules s) /\
   exists entry,
     trace_of (import_or_install X s) = [EvPip entry ["install"; "pystan"]]).
Proof.
  destruct (decide ("pystan" ∈ modules s)) as [H|H].
  - rewrite import_or_install_available by assumption. left; reflexivity.
  - rewrite import_or_install_missing by assumption.
    destruct (install_trace_shape "pystan" s) as [E | [_ E]];
      destruct (install X "pystan" s) as [[[[]|e] s0] t0];
      unfold trace_of in *; simpl in *; subst t0; eauto.
Qed.

Lemma probe_trace_shape cache_path s :
  trace_of (probe X cache_path s) = [] \/
  exists p,
    cache_path = Some p /\
    (trace_of (probe X cache_path s) = [EvExists p] \/
     trace_of (probe X cache_path s)
     = [EvExists p; EvOpen (codec_of p) p "rb"]).
Proof.
  destruct cache_path as [p|]; [|left; reflexivity].
  right. exists p. split; [reflexivity|]. rewrite probe_some.
  destruct (bool_decide (p <> "") && bool_decide (is_Some (files s !! p)));
    [|left; reflexivity].
  destruct (unpickled X (codec_of p) p s) as [v|e]; [right; reflexivity|].
  destruct (except_matches [OSError; TypeError] e); right; reflexivity.
Qed.

Lemma persist_trace_shape cache_path (m : value obj) s :
  trace_of (persist X cache_path m s) = [] \/
  exists p,
    cache_path = Some p /\ p <> "" /\
    trace_of (persist X cache_path m s) = [EvOpen (codec_of p) p "wb"].
Proof.
  destruct cache_path as [p|]; [|left; reflexivity].
  unfold persist. destruct (truthy p) eqn:E; [|left; reflexivity].
  apply truthy_spec in E. rewrite save_default.
  destruct (pickle_dumps X m); [|left; reflexivity].
  right. exists p. rewrite open_write_trace. auto.
Qed.

Section Calls.

Variables file charset model_name model_code stanc_ret include_paths
  boost_lib eigen_lib verbose obfuscate_model_name extra_compile_args
  : value obj.
Variable kwargs : keywords obj.

Local Abbreviation kw :=
  (stan_model_kwargs file charset model_name model_code stanc_ret
     include_paths boost_lib eigen_lib verbose obfuscate_model_name
     extra_compile_args kwargs).

Local Abbreviation run cache_path :=
  (StanModel X file charset model_name model_code stanc_ret include_paths
     boost_lib eigen_lib verbose obfuscate_model_name extra_compile_args
     cache_path kwargs).

(** The calls of one run, in order: the installer's (if the import
    failed), the probe's, the builder's and the save's. *)
Lemma StanModel_trace_shape cache_path s :
  exists t0 t1 t2,
    trace_of (run cache_path s) = t0 ++ t1 ++ t2 /\
    (t0 = [] \/
     (("pystan" ∉ modules s) /\
      exists entry, t0 = [EvPip entry ["install"; "pystan"]])) /\
    (t1 = [] \/
     exists p, cache_path = Some p /\
       (t1 = [EvExists p] \/ t1 = [EvExists p; EvOpen (codec_of p) p "rb"])) /\
    (t2 = [] \/
     ("pystan" ∈ modules s /\
      (t2 = [EvBuild kw] \/
       exists p, cache_path = Some p /\ p <> "" /\
         t2 = [EvBuild kw; EvOpen (codec_of p) p "wb"]))).
Proof.
  rewrite StanModel_steps.
  pose proof (import_or_install_trace_shape s) as H0.
  destruct (import_or_install X s) as [[[pystan|e] s0] t0] eqn:Ei;
    unfold trace_of in H0; simpl in H0.
  2:{ exists t0, [], []. rewrite !app_nil_r. auto. }
  pose proof (probe_trace_shape cache_path s0) as H1.
  destruct (probe X cache_path s0) as [[[[stan_model compile_model]|e] s1] t1];
    unfold trace_of in H1; simpl in H1.
  2:{ exists t0, t1, []. rewrite !app_nil_r. auto. }
  destruct compile_model.
  - destruct pystan.
    + apply import_or_install_bound in Ei as (Hm & _ & _).
      destruct (pystan_StanModel X kw s1) as [m|e].
      * pose proof (persist_trace_shape cache_path m s1) as H2.
        destruct (persist X cache_path m s1) as [[[[]|e] s2] t2];
          unfold trace_of in H2; simpl in H2;
          destruct stan_model;
          (exists t0, t1, (EvBuild kw :: t2); split; [reflexivity|];
           split; [exact H0|]; split; [exact H1|]; right; split; [exact Hm|];
           destruct H2 as [-> | (p & -> & Hne & ->)]; eauto).
      * destruct stan_model;
          (exists t0, t1, [EvBuild kw]; split; [reflexivity|]; auto 6).
    + destruct stan_model;
        (exists t0, t1, []; rewrite !app_nil_r; auto).
  - destruct stan_model;
      (exists t0, t1, []; rewrite !app_nil_r; auto).
Qed.

(** X8. In every call the builder is invoked at most once, only when
    [pystan] could be imported, and only on the keywords built from the
    call's own parameters; and a file is opened for writing only in a call
    that invoked the builder. *)
Theorem builder_invoked_at_most_once cache_path s :
  (builder_calls (trace_of (run cache_path s)) <= 1)%nat /\
  (forall kw', In (EvBuild kw') (trace_of (run cache_path s)) ->
     kw' = kw /\ "pystan" ∈ modules s) /\
  (length (writes (trace_of (run cache_path s)))
   <= builder_calls (trace_of (run cache_path s)))%nat.
Proof.
  destruct (StanModel_trace_shape cache_path s)
    as (t0 & t1 & t2 & -> & H0 & H1 & H2).
  destruct H0 as [-> | (_ & entry & ->)];
    destruct H1 as [-> | (p & _ & [-> | ->])];
    destruct H2 as [-> | (Hm & [-> | (p' & _ & _ & ->)])];
    (split; [simpl; unfold builder_calls; simpl; lia|]);
    (split; [|unfold builder_calls, writes; simpl; lia]);
    intros kw' Hin; simpl in Hin;
    repeat (destruct Hin as [Hin|Hin]; [try discriminate Hin|]);
    try contradiction;
    injection Hin as <-; auto.
Qed.

(** X9. Every access to the file system that a call makes, existence
    test or open, is on the cache path it was given: no other path is ever
    tested, read or written by the cache logic. *)
Theorem file_accesses_on_cache_path_only cache_path s ev :
  In ev (trace_of (run cache_path s)) ->
  is_file_access ev = true ->
  event_path ev = cache_path.
Proof.
  destruct (StanModel_trace_shape cache_path s)
    as (t0 & t1 & t2 & -> & H0 & H1 & H2).
  intros Hin Hf.
  destruct H0 as [-> | (_ & entry & ->)];
    destruct H1 as [-> | (p & -> & [-> | ->])];
    destruct H2 as [-> | (Hm & [-> | (p' & Hp' & _ & ->)])];
    simpl in Hin;
    repeat (destruct Hin as [<-|Hin];
            [simpl in *; first [discriminate Hf | congruence]|]);
    contradiction.
Qed.

(** X10. The installer is invoked only in a call in which [pystan] could
    not be imported, at most once, and on [install] and [pystan]. *)
Theorem installer_only_when_unavailable cache_path s :
  ("pystan" ∈ modules s -> pip_calls (trace_of (run cache_path s)) = []) /\
  (length (pip_calls (trace_of (run cache_path s))) <= 1)%nat /\
  (forall ev, In ev (pip_calls (trace_of (run cache_path s))) ->
     exists entry, ev = EvPip entry ["install"; "pystan"]).
Proof.
  destruct (StanModel_trace_shape cache_path s)
    as (t0 & t1 & t2 & -> & H0 & H1 & H2).
  destruct H0 as [-> | (Hn & entry & ->)];
    destruct H1 as [-> | (p & _ & [-> | ->])];
    destruct H2 as [-> | (Hm & [-> | (p' & _ & _ & ->)])];
    (split; [intros Hm'; try contradiction; reflexivity|]);
    (split; [simpl; lia|]);
    intros ev Hin; simpl in Hin;
    repeat (destruct Hin as [<-|Hin]; eauto); contradiction.
Qed.

(** X11. With [pystan] importable, a call changes nothing but the file at
    its cache path: every other file keeps its content, and the access
    rights and the importable modules are as before. *)
Theorem StanModel_keeps_other_files cache_path s q :
  "pystan" ∈ modules s ->
  cache_path <> Some q ->
  files (env_of (run cache_path s)) !! q = files s !! q /\
  read_error (env_of (run cache_path s)) = read_error s /\
  write_error (env_of (run cache_path s)) = write_error s /\
  modules (env_of (run cache_path s)) = modules s.
Proof.
  intros Hm Hq.
  rewrite StanModel_steps, (import_or_install_available _ _ Hm).
  pose proof (probe_frame X cache_path s) as (Hs & _ & _).
  destruct (probe X cache_path s) as [[[[stan_model compile_model]|e] s1] t1];
    unfold env_of in Hs; simpl in Hs; subst s1; [|auto].
  destruct compile_model; [|destruct stan_model; auto].
  destruct (pystan_StanModel X kw s) as [m|e]; [|destruct stan_model; auto].
  assert (Hp : files (env_of (persist X cache_path m s)) !! q = files s !! q /\
               read_error (env_of (persist X cache_path m s)) = read_error s /\
               write_error (env_of (persist X cache_path m s))
               = write_error s /\
               modules (env_of (persist X cache_path m s)) = modules s).
  { destruct cache_path as [p|]; [|auto]. unfold persist.
    destruct (truthy p); [|auto]. rewrite save_default.
    destruct (pickle_dumps X m); [|auto].
    apply open_write_wb_frame. congruence. }
  destruct (persist X cache_path m s) as [[[[]|e] s2] t2];
    destruct stan_model; exact Hp.
Qed.

(** X12. A write error loses the model: on a miss at a non-empty cache
    path, when the builder returns a model and the save of it raises, the
    call raises the save's error instead of returning the model that was
    built. *)
Theorem failed_save_loses_the_model p s m e s2 t2 :
  "pystan" ∈ modules s ->
  p <> "" -> files s !! p = None ->
  pystan_StanModel X kw s = Ok m ->
  save X p m "wb" true [] s = (Raise e, s2, t2) ->
  run (Some p) s = (Raise e, s2, [EvExists p; EvBuild kw] ++ t2).
Proof.
  intros Hm Hne Hf Hb Hs.
  assert (Hp : probe X (Some p) s = (Ok (None, true), s, [EvExists p])).
  { rewrite probe_some, Hf.
    rewrite (bool_decide_eq_false_2 (is_Some None))
      by (intros [? ?]; discriminate).
    rewrite andb_false_r. reflexivity. }
  erewrite StanModel_builds; [|exact Hm|exact Hp].
  rewrite Hb, (persist_nonempty _ p m s Hne), Hs. reflexivity.
Qed.

(** X13. A failed installation aborts the call: when [pystan] cannot be
    imported and [install] raises, the call raises that error before the
    cache is looked at, so that even a readable cache file is not loaded;
    in particular with [pip] not importable either, the call raises the
    import error and does nothing at all. *)
Theorem failed_install_aborts cache_path s :
  "pystan" ∉ modules s ->
  (forall e s0 t0,
     install X "pystan" s = (Raise e, s0, t0) ->
     run cache_path s = (Raise e, s0, t0) /\ file_accesses t0 = []) /\
  ("pip" ∉ modules s ->
   run cache_path s = (Raise ModuleNotFoundError, s, [])).
Proof.
  intros Hm.
  assert (H : forall e s0 t0,
            install X "pystan" s = (Raise e, s0, t0) ->
            run cache_path s = (Raise e, s0, t0)).
  { intros e s0 t0 Hi.
    rewrite StanModel_steps, (import_or_install_missing _ _ Hm), Hi.
    reflexivity. }
  split.
  - intros e s0 t0 Hi. split; [apply H; exact Hi|].
    pose proof (install_trace X "pystan" s) as [_ Hf]. rewrite Hi in Hf.
    exact Hf.
  - intros Hp. apply H. unfold install, bind, import_module.
    rewrite bool_decide_eq_false_2 by assumption. reflexivity.
Qed.

(** X14. A cache that could not be read is repaired by the call: when the
    probe's read of an existing file raises an [OSError] or a [TypeError],
    and the rebuilt model is saved, the next call on the same path is a hit
    that returns that model without invoking the builder. *)
Theorem rebuilt_cache_is_hit_next p s e m b :
  codec_roundtrip X -> pickle_roundtrip X ->
  "pystan" ∈ modules s ->
  p <> "" -> is_Some (files s !! p) ->
  outcome_of (read X p "rb" true s) = Raise e ->
  except_matches [OSError; TypeError] e = true ->
  pystan_StanModel X kw s = Ok m ->
  pickle_dumps X m = Ok b ->
  write_error s p = None -> read_error s p = None ->
  outcome_of (run (Some p) s) = Ok m /\
  run (Some p) (env_of (run (Some p) s))
  = (Ok m, env_of (run (Some p) s),
     [EvExists p; EvOpen (codec_of p) p "rb"]).
Proof.
  intros Hcr Hpr Hm Hne Hf Hr Hc Hb Hd Hw Hre.
  rewrite read_default in Hr. unfold outcome_of in Hr. simpl in Hr.
  set (s1 := set_files (<[p := encode X (codec_of p) [] b]> (files s)) s).
  assert (Hp : probe X (Some p) s
               = (Ok (None, true), s,
                  [EvExists p; EvOpen (codec_of p) p "rb"])).
  { rewrite probe_some, Hr, Hc.
    rewrite !bool_decide_eq_true_2 by assumption. reflexivity. }
  assert (Hs : save X p m "wb" true [] s
               = (Ok tt, s1, [EvOpen (codec_of p) p "wb"])).
  { rewrite save_default, Hd. unfold open_write. simpl.
    rewrite bool_decide_eq_false_2 by assumption.
    rewrite Hw. reflexivity. }
  assert (E1 : run (Some p) s
               = (Ok m, s1,
                  [EvExists p; EvOpen (codec_of p) p "rb"]
                  ++ EvBuild kw :: [EvOpen (codec_of p) p "wb"])).
  { erewrite StanModel_builds; [|exact Hm|exact Hp].
    rewrite Hb, (persist_nonempty _ p m s Hne), Hs. reflexivity. }
  rewrite E1. unfold outcome_of, env_of. simpl. split; [reflexivity|].
  assert (Hu : unpickled X (codec_of p) p s1 = Ok m)
    by (apply unpickled_after_store; assumption).
  rewrite StanModel_steps.
  rewrite (import_or_install_available X s1) by exact Hm.
  rewrite probe_some, Hu.
  rewrite bool_decide_eq_true_2 by assumption.
  rewrite bool_decide_eq_true_2
    by (unfold s1; simpl; rewrite lookup_insert_eq; eauto).
  reflexivity.
Qed.

End Calls.

End Builder_properties.

(** ** Further properties of the extension of a path *)

Lemma append_cons a s1 s2 : String a s1 +:+ s2 = String a (s1 +:+ s2).
Proof. reflexivity. Qed.

Lemma append_nil_r s : s +:+ "" = s.
Proof.
  induction s as [|a s IH]; [reflexivity|]. rewrite append_cons, IH.
  reflexivity.
Qed.

Lemma append_assoc s1 s2 s3 : (s1 +:+ s2) +:+ s3 = s1 +:+ (s2 +:+ s3).
Proof.
  induction s1 as [|a s1 IH]; [reflexivity|]. rewrite !append_cons, IH.
  reflexivity.
Qed.

Lemma length_append s1 s2 :
  String.length (s1 +:+ s2) = (String.length s1 + String.length s2)%nat.
Proof.
  induction s1 as [|a s1 IH]; [reflexivity|]. rewrite append_cons. simpl.
  rewrite IH. reflexivity.
Qed.

Lemma substring_whole s : substring 0 (String.length s) s = s.
Proof.
  induction s as [|a s IH]; simpl; [reflexivity|]. rewrite IH. reflexivity.
Qed.

(** A string is its first [d] characters followed by the rest. *)
Lemma substring_split d s :
  substring 0 d s +:+ substring d (String.length s - d) s = s.
Proof.
  revert d. induction s as [|a s IH]; intros [|d]; simpl; try reflexivity.
  - rewrite substring_whole. reflexivity.
  - rewrite append_cons, IH. reflexivity.
Qed.

Lemma substring_append_skip pre f m s :
  substring (String.length pre + f) m (pre +:+ s) = substring f m s.
Proof.
  induction pre as [|a pre IH]; [reflexivity|]. rewrite append_cons. exact IH.
Qed.

Lemma rfind_from_range c s i :
  rfind_from c s i = -1 \/
  i <= rfind_from c s i < i + Z.of_nat (String.length s).
Proof.
  revert i. induction s as [|a s IH]; intros i; [left; reflexivity|].
  cbn [rfind_from String.length].
  destruct (IH (i + 1)) as [E|E].
  - rewrite E. simpl. destruct (Ascii.eqb a c); [right; lia|left; reflexivity].
  - destruct (0 <=? rfind_from c s (i + 1)).
    + right. lia.
    + destruct (Ascii.eqb a c); [right; lia|left; reflexivity].
Qed.

Lemma rfind_from_absent c s i :
  c ∉ list_ascii_of_string s -> rfind_from c s i = -1.
Proof.
  revert i. induction s as [|a s IH]; intros i H; [reflexivity|].
  simpl in H. apply not_elem_of_cons in H as [Hne H].
  cbn [rfind_from]. rewrite (IH _ H). simpl.
  destruct (Ascii.eqb_spec a c); [congruence|reflexivity].
Qed.

(** Searching from another start index shifts the index found. *)
Lemma rfind_from_shift c s i j :
  0 <= i -> 0 <= j ->
  rfind_from c s j =
  if rfind_from c s i =? -1 then -1 else rfind_from c s i - i + j.
Proof.
  revert i j. induction s as [|a s IH]; intros i j Hi Hj; [reflexivity|].
  cbn [rfind_from].
  rewrite (IH (i + 1) (j + 1)) by lia.
  destruct (rfind_from_range c s (i + 1)) as [E|E].
  - rewrite E. simpl. destruct (Ascii.eqb a c); [|reflexivity].
    destruct (Z.eqb_spec i (-1)); lia.
  - destruct (Z.eqb_spec (rfind_from c s (i + 1)) (-1)) as [E1|E1]; [lia|].
    destruct (Z.leb_spec 0 (rfind_from c s (i + 1) - (i + 1) + (j + 1)));
      [|lia].
    destruct (Z.leb_spec 0 (rfind_from c s (i + 1))); [|lia].
    destruct (Z.eqb_spec (rfind_from c s (i + 1)) (-1)); lia.
Qed.

(** The last occurrence in a concatenation is the one in the second
    string, if there is one. *)
Lemma rfind_from_append c s1 s2 i :
  0 <= i ->
  rfind_from c (s1 +:+ s2) i =
  if 0 <=? rfind_from c s2 (i + Z.of_nat (String.length s1))
  then rfind_from c s2 (i + Z.of_nat (String.length s1))
  else rfind_from c s1 i.
Proof.
  revert i. induction s1 as [|a s1 IH]; intros i Hi.
  - simpl. rewrite Z.add_0_r.
    destruct (Z.leb_spec 0 (rfind_from c s2 i)); [reflexivity|].
    destruct (rfind_from_range c s2 i) as [E|E]; [exact E|lia].
  - rewrite append_cons. cbn [rfind_from String.length].
    rewrite IH by lia.
    replace (i + 1 + Z.of_nat (String.length s1))
      with (i + Z.of_nat (S (String.length s1))) by lia.
    cbv zeta.
    destruct (0 <=? rfind_from c s2 (i + Z.of_nat (S (String.length s1))))
      eqn:E; rewrite ?E; reflexivity.
Qed.

Lemma splitext_scan_append pre s d f n :
  snd (splitext_scan (pre +:+ s) (String.length pre + d)
         (String.length pre + f) n)
  = snd (splitext_scan s d f n).
Proof.
  revert f. induction n as [|n IH]; intros f; [reflexivity|].
  cbn [splitext_scan]. rewrite substring_append_skip.
  destruct (negb (substring f 1 s =? ".")%string).
  - cbn [snd]. rewrite substring_append_skip, length_append.
    f_equal. lia.
  - rewrite <- Nat.add_succ_r. apply IH.
Qed.

(** The two parts that [os.path.splitext] returns make up the path. *)
Lemma splitext_concat p : fst (splitext p) +:+ snd (splitext p) = p.
Proof.
  unfold splitext. destruct (rfind "/" p <? rfind "." p).
  - generalize (Z.to_nat (rfind "." p)) as d.
    generalize (Z.to_nat (rfind "/" p + 1)) as f.
    generalize (Z.to_nat (rfind "." p - (rfind "/" p + 1))) as n.
    intros n. induction n as [|n IH]; intros f d; cbn [splitext_scan].
    + apply append_nil_r.
    + destruct (negb (substring f 1 p =? ".")%string); [|apply IH].
      apply substring_split.
  - apply append_nil_r.
Qed.

(** X15. A compressing codec is chosen only for a path that ends in one of
    its extensions: [read] and [save] go through gzip only if the path ends
    in [.gz], [.gzip] or [.zip], through lzma only if it ends in [.xz] or
    [.lzma], and through bzip2 only if it ends in [.bz2]. *)
Theorem compressed_only_by_suffix path :
  match codec_of path with
  | gzip =>
      exists root,
        path = root +:+ ".gz" \/ path = root +:+ ".gzip" \/
        path = root +:+ ".zip"
  | lzma => exists root, path = root +:+ ".xz" \/ path = root +:+ ".lzma"
  | bz2 => exists root, path = root +:+ ".bz2"
  | io => True
  end.
Proof.
  pose proof (splitext_concat path) as Hp.
  unfold codec_of. rewrite ext_dict_get_table. unfold spec_table.
  repeat case_bool_decide; simpl; try exact I;
    exists (fst (splitext path)); set_unfold;
    destruct_or?; try contradiction;
    match goal with E : snd (splitext path) = _ |- _ => rewrite E in Hp end;
    auto.
Qed.

(** Under a directory, the last separator is the one after the directory. *)
Lemma rfind_sep_under dir name :
  "/"%char ∉ list_ascii_of_string name ->
  rfind "/" (dir +:+ "/" +:+ name) = Z.of_nat (String.length dir).
Proof.
  intros Hn. unfold rfind.
  change ("/" +:+ name) with (String "/" name).
  rewrite rfind_from_append by lia. cbn [rfind_from].
  rewrite (rfind_from_absent "/" name) by assumption.
  change (0 <=? -1) with false. simpl (Ascii.eqb _ _). cbv iota.
  destruct (Z.leb_spec 0 (0 + Z.of_nat (String.length dir))); lia.
Qed.

(** Under a directory, the last dot is the one of the file name if it has
    one, and the one of the directory otherwise. *)
Lemma rfind_dot_under dir name :
  rfind "." (dir +:+ "/" +:+ name) =
  if rfind "." name =? -1 then rfind "." dir
  else rfind "." name + Z.of_nat (String.length dir) + 1.
Proof.
  unfold rfind.
  change ("/" +:+ name) with (String "/" name).
  rewrite rfind_from_append by lia. cbn [rfind_from].
  rewrite (rfind_from_shift "." name 0 (0 + Z.of_nat (String.length dir) + 1))
    by lia.
  simpl (Ascii.eqb _ _). change (0 <=? -1) with false. cbv iota zeta.
  destruct (rfind_from_range "." name 0) as [E|E].
  - rewrite E. reflexivity.
  - destruct (Z.eqb_spec (rfind_from "." name 0) (-1)); [lia|].
    destruct (Z.leb_spec 0
                (rfind_from "." name 0 - 0
                 + (0 + Z.of_nat (String.length dir) + 1))); [|lia].
    destruct (Z.leb_spec 0
                (rfind_from "." name 0 - 0
                 + (0 + Z.of_nat (String.length dir) + 1))); lia.
Qed.

(** X16. Only the last component of a path selects the codec: for a file
    name without a separator, under any directory, the extension, the codec
    and the forcing of pickling are those of the file name alone, so a dot
    in a directory name selects nothing. *)
Theorem codec_of_last_component dir name :
  "/"%char ∉ list_ascii_of_string name ->
  snd (splitext (dir +:+ "/" +:+ name)) = snd (splitext name) /\
  codec_of (dir +:+ "/" +:+ name) = codec_of name.
Proof.
  intros Hn.
  assert (E : snd (splitext (dir +:+ "/" +:+ name)) = snd (splitext name));
    [|split; [exact E|unfold codec_of; rewrite E; reflexivity]].
  unfold splitext.
  rewrite (rfind_sep_under dir name Hn), (rfind_dot_under dir name).
  assert (Hs : rfind "/" name = -1) by (apply rfind_from_absent; assumption).
  rewrite Hs.
  destruct (rfind_from_range "." name 0) as [E0|E0]; fold (rfind "." name) in E0.
  - rewrite E0. change (-1 =? -1) with true. change (-1 <? -1) with false.
    cbv iota.
    destruct (rfind_from_range "." dir 0) as [Ed|Ed];
      fold (rfind "." dir) in Ed;
      destruct (Z.ltb_spec (Z.of_nat (String.length dir)) (rfind "." dir));
      [lia|reflexivity|lia|reflexivity].
  - set (d := rfind "." name) in *.
    destruct (Z.eqb_spec d (-1)); [lia|].
    destruct (Z.ltb_spec (Z.of_nat (String.length dir))
                (d + Z.of_nat (String.length dir) + 1)); [|lia].
    destruct (Z.ltb_spec (-1) d); [|lia].
    replace (dir +:+ "/" +:+ name) with ((dir +:+ "/") +:+ name)
      by (rewrite append_assoc; reflexivity).
    replace (Z.to_nat (d + Z.of_nat (String.length dir) + 1))
      with (String.length (dir +:+ "/") + Z.to_nat d)%nat
      by (rewrite length_append; simpl; lia).
    replace (Z.to_nat (Z.of_nat (String.length dir) + 1))
      with (String.length (dir +:+ "/") + Z.to_nat (-1 + 1))%nat
      by (rewrite length_append; simpl; lia).
    replace (Z.to_nat
               (d + Z.of_nat (String.length dir) + 1
                - (Z.of_nat (String.length dir) + 1)))
      with (Z.to_nat (d - (-1 + 1))) by lia.
    apply splitext_scan_append.
Qed.

(** ** The further properties on the concrete libraries *)

Lemma scenario_two_files_importable : "pystan" ∈ modules Scenario.two_files.
Proof. apply (bool_decide_unpack _). vm_compute. exact I. Qed.

Lemma scenario_read_only_importable :
  "pystan" ∈ modules (Scenario.read_only (Demo.fresh ["pystan"])).
Proof. apply (bool_decide_unpack _). vm_compute. exact I. Qed.

Lemma scenario_bare_missing : "pystan" ∉ modules Scenario.bare_cached.
Proof. apply (proj1 (bool_decide_eq_false _)). vm_compute. reflexivity. Qed.

Lemma scenario_bare_no_pip : "pip" ∉ modules Scenario.bare_cached.
Proof. apply (proj1 (bool_decide_eq_false _)). vm_compute. reflexivity. Qed.


(** Witness of X2: text saved over the notes. *)
Lemma text_without_pickling_truncates_witness :
  files Scenario.two_files !! "notes.txt" = Some [x68; x69] /\
  outcome_of (save Demo.libraries "notes.txt" (VStr "hello") "wb" false []
                Scenario.two_files) = Raise TypeError /\
  files (env_of (save Demo.libraries "notes.txt" (VStr "hello") "wb" false []
                   Scenario.two_files)) !! "notes.txt" = Some [].
Proof.
  split; [reflexivity|].
  rewrite (text_without_pickling_truncates Demo.libraries "notes.txt" "hello"
             Scenario.two_files);
    [split; reflexivity|reflexivity|discriminate|reflexivity].
Defined.

(** Witness of X3: three raw bytes through gzip. *)
Lemma raw_bytes_roundtrip_witness :
  read Demo.libraries "blob.gz" "rb" false
    (env_of (save Demo.libraries "blob.gz" (VBytes [x01; x02; x03]) "wb"
               false [] (Demo.fresh [])))
  = (Ok (VBytes [x01; x02; x03]),
     env_of (save Demo.libraries "blob.gz" (VBytes [x01; x02; x03]) "wb"
               false [] (Demo.fresh [])),
     [EvOpen (codec_of "blob.gz") "blob.gz" "rb"]).
Proof.
  apply (raw_bytes_roundtrip Demo.libraries "blob.gz" [x01; x02; x03] []
           false (Demo.fresh [])); try reflexivity.
  apply demo_codec_roundtrip.
Defined.

(** Witness of X4: the pickle of a model, read raw from [m.bz2]. *)
Lemma raw_read_of_pickled_file_witness :
  read Demo.libraries "m.bz2" "rb" false
    (env_of (save Demo.libraries "m.bz2" (VObj "model {}") "wb" true []
               (Demo.fresh [])))
  = (Ok (VBytes (x63 :: list_byte_of_string "model {}")),
     env_of (save Demo.libraries "m.bz2" (VObj "model {}") "wb" true []
               (Demo.fresh [])),
     [EvOpen (codec_of "m.bz2") "m.bz2" "rb"]).
Proof.
  apply (raw_read_of_pickled_file Demo.libraries "m.bz2" (VObj "model {}")
           (x63 :: list_byte_of_string "model {}") [] (Demo.fresh []));
    try reflexivity.
  apply demo_codec_roundtrip.
Defined.

(** Witness of X5: saving a model at [m.pkl] leaves the notes alone. *)
Lemma save_touches_only_its_path_witness :
  files (env_of (save Demo.libraries "m.pkl" (VObj "new") "wb" true []
                   Scenario.two_files)) !! "m.pkl"
    = Some (x63 :: list_byte_of_string "new") /\
  files (env_of (save Demo.libraries "m.pkl" (VObj "new") "wb" true []
                   Scenario.two_files)) !! "notes.txt"
    = files Scenario.two_files !! "notes.txt".
Proof.
  split; [reflexivity|].
  apply (save_touches_only_its_path Demo.libraries "m.pkl" (VObj "new") true
           [] Scenario.two_files "notes.txt").
  discriminate.
Defined.

(** Witness of X6: two models saved in turn at [m.xz]. *)
Lemma save_overwrites_witness :
  save Demo.libraries "m.xz" (VObj "second") "wb" true []
    (env_of (save Demo.libraries "m.xz" (VObj "first") "wb" true []
               (Demo.fresh [])))
  = save Demo.libraries "m.xz" (VObj "second") "wb" true [] (Demo.fresh []).
Proof.
  apply (save_overwrites Demo.libraries "m.xz" (VObj "first")
           (VObj "second") [] [] (Demo.fresh [])); reflexivity.
Defined.

(** Witness of X7: a [pip] without [main], and no [pip] at all. *)
Lemma install_calls_pip_at_most_once_witness :
  trace_of (install Demo.libraries "pystan"
              (Scenario.newer_pip (Demo.fresh ["pip"; "pip._internal"])))
    = [EvPip "pip._internal.main" ["install"; "pystan"]] /\
  install Demo.libraries "pystan" Scenario.bare_cached
    = (Raise ModuleNotFoundError, Scenario.bare_cached, []).
Proof.
  split; [reflexivity|].
  destruct (install_calls_pip_at_most_once Demo.libraries "pystan"
              Scenario.bare_cached) as (_ & _ & H).
  apply H. exact scenario_bare_no_pip.
Defined.

(** Witness of X8: the one build of a miss on [m.gz]. *)
Lemma builder_invoked_at_most_once_witness :
  In (EvBuild (Demo.kw "model {}"))
     (trace_of (Demo.compile "model {}" (Some "m.gz") (Demo.fresh ["pystan"])))
  /\ (builder_calls
        (trace_of (Demo.compile "model {}" (Some "m.gz")
                     (Demo.fresh ["pystan"]))) <= 1)%nat
  /\ "pystan" ∈ modules (Demo.fresh ["pystan"]).
Proof.
  assert (Hin : In (EvBuild (Demo.kw "model {}"))
                  (trace_of (Demo.compile "model {}" (Some "m.gz")
                               (Demo.fresh ["pystan"]))))
    by (right; left; reflexivity).
  destruct (builder_invoked_at_most_once Demo.libraries
              VNone (VStr "utf-8") (VStr "anon_model") (VStr "model {}") VNone
              VNone VNone VNone (VBool false) (VBool true) VNone []
              (Some "m.gz") (Demo.fresh ["pystan"])) as (Hb & Hk & _).
  split; [exact Hin|]. split; [exact Hb|].
  exact (proj2 (Hk _ Hin)).
Defined.

(** Witness of X9: the write of a miss on [m.gz] is on [m.gz]. *)
Lemma file_accesses_on_cache_path_only_witness :
  In (EvOpen gzip "m.gz" "wb")
     (trace_of (Demo.compile "model {}" (Some "m.gz") Scenario.two_files)) /\
  event_path (obj := Demo.obj) (EvOpen gzip "m.gz" "wb") = Some "m.gz".
Proof.
  assert (Hin : In (EvOpen gzip "m.gz" "wb")
                  (trace_of (Demo.compile "model {}" (Some "m.gz")
                               Scenario.two_files)))
    by (right; right; left; reflexivity).
  split; [exact Hin|].
  apply (file_accesses_on_cache_path_only Demo.libraries
           VNone (VStr "utf-8") (VStr "anon_model") (VStr "model {}") VNone
           VNone VNone VNone (VBool false) (VBool true) VNone []
           (Some "m.gz") Scenario.two_files (EvOpen gzip "m.gz" "wb") Hin).
  reflexivity.
Defined.

(** Witness of X10: no installer call when [pystan] is there. *)
Lemma installer_only_when_unavailable_witness :
  pip_calls (trace_of (Demo.compile "model {}" (Some "m.gz")
                         (Demo.fresh ["pystan"]))) = [].
Proof.
  destruct (installer_only_when_unavailable Demo.libraries
              VNone (VStr "utf-8") (VStr "anon_model") (VStr "model {}") VNone
              VNone VNone VNone (VBool false) (VBool true) VNone []
              (Some "m.gz") (Demo.fresh ["pystan"])) as (H & _ & _).
  apply H. exact demo_importable.
Defined.

(** Witness of X11: a miss on [m.gz] beside the notes and a cached model. *)
Lemma StanModel_keeps_other_files_witness :
  files (env_of (Demo.compile "model {}" (Some "m.gz") Scenario.two_files))
    !! "notes.txt" = files Scenario.two_files !! "notes.txt" /\
  is_Some (files (env_of (Demo.compile "model {}" (Some "m.gz")
                            Scenario.two_files)) !! "m.gz").
Proof.
  split.
  - apply (StanModel_keeps_other_files Demo.libraries
             VNone (VStr "utf-8") (VStr "anon_model") (VStr "model {}") VNone
             VNone VNone VNone (VBool false) (VBool true) VNone []
             (Some "m.gz") Scenario.two_files "notes.txt"
             scenario_two_files_importable).
    discriminate.
  - eexists. reflexivity.
Defined.

(** Witness of X12: a miss on a disk that refuses every write. *)
Lemma failed_save_loses_the_model_witness :
  Demo.compile "model {}" (Some "m.gz")
    (Scenario.read_only (Demo.fresh ["pystan"]))
  = (Raise PermissionError, Scenario.read_only (Demo.fresh ["pystan"]),
     [EvExists "m.gz"; EvBuild (Demo.kw "model {}")]
     ++ [EvOpen gzip "m.gz" "wb"]).
Proof.
  apply (failed_save_loses_the_model Demo.libraries
           VNone (VStr "utf-8") (VStr "anon_model") (VStr "model {}") VNone
           VNone VNone VNone (VBool false) (VBool true) VNone []
           "m.gz" (Scenario.read_only (Demo.fresh ["pystan"]))
           (VObj "model {}") PermissionError
           (Scenario.read_only (Demo.fresh ["pystan"]))
           [EvOpen gzip "m.gz" "wb"] scenario_read_only_importable).
  - discriminate.
  - reflexivity.
  - reflexivity.
  - reflexivity.
Defined.

(** Witness of X13: a readable cache at [m.pkl], but neither [pystan] nor
    [pip]. *)
Lemma failed_install_aborts_witness :
  read Demo.libraries "m.pkl" "rb" true Scenario.bare_cached
    = (Ok (VObj "old"), Scenario.bare_cached, [EvOpen io "m.pkl" "rb"]) /\
  Demo.compile "new" (Some "m.pkl") Scenario.bare_cached
    = (Raise ModuleNotFoundError, Scenario.bare_cached, []).
Proof.
  split; [reflexivity|].
  destruct (failed_install_aborts Demo.libraries
              VNone (VStr "utf-8") (VStr "anon_model") (VStr "new") VNone
              VNone VNone VNone (VBool false) (VBool true) VNone []
              (Some "m.pkl") Scenario.bare_cached scenario_bare_missing)
    as [_ H].
  apply H. exact scenario_bare_no_pip.
Defined.

(** Witness of X14: the three bytes at [m.gz] are replaced, and the next
    call, which asks for another model, is a hit. *)
Lemma rebuilt_cache_is_hit_next_witness :
  outcome_of (Demo.compile "model {}" (Some "m.gz") Demo.corrupt)
    = Ok (VObj "model {}") /\
  Demo.compile "model {}" (Some "m.gz")
    (env_of (Demo.compile "model {}" (Some "m.gz") Demo.corrupt))
  = (Ok (VObj "model {}"),
     env_of (Demo.compile "model {}" (Some "m.gz") Demo.corrupt),
     [EvExists "m.gz"; EvOpen (codec_of "m.gz") "m.gz" "rb"]).
Proof.
  apply (rebuilt_cache_is_hit_next Demo.libraries
           VNone (VStr "utf-8") (VStr "anon_model") (VStr "model {}") VNone
           VNone VNone VNone (VBool false) (VBool true) VNone []
           "m.gz" Demo.corrupt BadGzipFile (VObj "model {}")
           (x63 :: list_byte_of_string "model {}")
           demo_codec_roundtrip demo_pickle_roundtrip
           demo_corrupt_importable).
  - discriminate.
  - exists [x00; x01; x02]. reflexivity.
  - reflexivity.
  - reflexivity.
  - reflexivity.
  - reflexivity.
  - reflexivity.
  - reflexivity.
Defined.

(** Witness of X16: a [.pkl] file in a directory named like an archive. *)
Lemma codec_of_last_component_witness :
  snd (splitext ("cache.gz" +:+ "/" +:+ "model.pkl")) = ".pkl" /\
  codec_of ("cache.gz" +:+ "/" +:+ "model.pkl") = io.
Proof.
  destruct (codec_of_last_component "cache.gz" "model.pkl") as [He Hc].
  - apply (bool_decide_unpack _). vm_compute. exact I.
  - split; [rewrite He|rewrite Hc]; reflexivity.
Defined.

(** An option value that [gzip] rejects only once the file is open leaves
    the file empty; [bz2], which checks the level first, leaves it alone. *)
Example late_option_rejection_truncates :
  save Scenario.leveled "m.gz" (VObj "model {}") "wb" true
    [("compresslevel", VObj "99")] Demo.corrupt
  = (Raise ValueError, Demo.with_file "m.gz" [] Demo.corrupt,
     [EvOpen gzip "m.gz" "wb"]) /\
  save Scenario.leveled "m.bz2" (VObj "model {}") "wb" true
    [("compresslevel", VObj "99")] (Demo.with_file "m.bz2" [x00] Demo.corrupt)
  = (Raise ValueError, Demo.with_file "m.bz2" [x00] Demo.corrupt,
     [EvOpen bz2 "m.bz2" "wb"]) /\
  outcome_of
    (save Scenario.leveled "m.gz" (VObj "model {}") "wb" true
       [("compresslevel", VObj "9")] Demo.corrupt) = Ok tt.
Proof. repeat split; reflexivity. Qed.
